(** * rosteron: read-only RosterOn Mobile roster access

    A shallow embedding of [rosteron/__init__.py] and [rosteron/exceptions.py].

    Python values are modelled as follows.
    - [str] is [string]; characters are code points below 256.
    - [int] is [Z]; [len] results and loop indices are [nat].
    - [None] is the [None] of an [option].
    - A raised exception is the [Raise] case of [result]; methods of
      [Session], which mutate the browser and the log, are computations in
      the state-and-exception monad [M] over [World].
    - The libraries the module calls ([bs4], [mechanicalsoup], [requests],
      [datetime]) are modelled only as far as the module uses them; each
      such definition names the library behaviour it stands for. *)

From Stdlib Require Import String Ascii List ZArith Lia Bool Arith.
From Stdlib Require Import DecimalString.
Import ListNotations.
Local Open Scope string_scope.
Local Open Scope list_scope.

(** ** Exceptions *)

(** The built-in exceptions the module can meet, the library exceptions of
    [requests] and [mechanicalsoup], and the three concrete classes of
    [exceptions.py] with the argument each constructor takes. *)
Inductive exn : Type :=
| AttributeError
| TypeError
| KeyError
| ValueError
| IndexError
| OverflowError
| OSError
| RequestException
| LinkNotFoundError
| BadResponseError (purpose : string)
| BadCredentialsError (username : string)
| NotLoggedInError.

(** [isinstance(e, RosterOnError)]: the umbrella class of [exceptions.py]. *)
Definition is_RosterOnError (e : exn) : bool :=
  match e with
  | BadResponseError _ | BadCredentialsError _ | NotLoggedInError => true
  | _ => false
  end.

Inductive result (A : Type) : Type :=
| Ok (a : A)
| Raise (e : exn).
Arguments Ok {A} a.
Arguments Raise {A} e.

Definition rbind {A B} (r : result A) (k : A -> result B) : result B :=
  match r with
  | Ok a => k a
  | Raise e => Raise e
  end.

(** [[f(x) for x in xs]] where [f] may raise: elements are evaluated from
    left to right and the first exception ends the evaluation. *)
Fixpoint rmap {A B} (f : A -> result B) (xs : list A) : result (list B) :=
  match xs with
  | [] => Ok []
  | x :: xs' =>
      rbind (f x) (fun y => rbind (rmap f xs') (fun ys => Ok (y :: ys)))
  end.

(** ** Strings *)

Module Str.

(** [c.isspace()] for a code point below 256. *)
Definition isspace (c : ascii) : bool :=
  let n := nat_of_ascii c in
  (Nat.leb 9 n && Nat.leb n 13) || (Nat.leb 28 n && Nat.leb n 32)
  || Nat.eqb n 133 || Nat.eqb n 160.

Definition isdigit (c : ascii) : bool :=
  let n := nat_of_ascii c in Nat.leb 48 n && Nat.leb n 57.

Definition digit_value (c : ascii) : Z := Z.of_nat (nat_of_ascii c - 48).

(** [c.lower()] on the ASCII letters. *)
Definition lower_ascii (c : ascii) : ascii :=
  let n := nat_of_ascii c in
  if Nat.leb 65 n && Nat.leb n 90 then ascii_of_nat (n + 32) else c.

Fixpoint lower (s : string) : string :=
  match s with
  | EmptyString => EmptyString
  | String c s' => String (lower_ascii c) (lower s')
  end.

(** [s.startswith(p)] *)
Fixpoint startswith (p s : string) : bool :=
  match p, s with
  | EmptyString, _ => true
  | String a p', String b s' => Ascii.eqb a b && startswith p' s'
  | String _ _, EmptyString => false
  end.

(** [s[n:]] *)
Fixpoint drop (n : nat) (s : string) : string :=
  match n, s with
  | O, _ => s
  | S n', String _ s' => drop n' s'
  | S _, EmptyString => EmptyString
  end.

(** [s.partition(sep)] for a non-empty [sep]: the text before the first
    occurrence of [sep], [sep] itself and the text after it; when [sep]
    does not occur, [s] and two empty strings. *)
Fixpoint partition_found (sep s : string) : option (string * string) :=
  if startswith sep s then Some (EmptyString, drop (String.length sep) s)
  else
    match s with
    | EmptyString => None
    | String c s' =>
        match partition_found sep s' with
        | Some (h, t) => Some (String c h, t)
        | None => None
        end
    end.

Definition partition (sep s : string) : string * string * string :=
  match partition_found sep s with
  | Some (h, t) => (h, sep, t)
  | None => (s, EmptyString, EmptyString)
  end.

Fixpoint lstrip (s : string) : string :=
  match s with
  | EmptyString => EmptyString
  | String c s' => if isspace c then lstrip s' else s
  end.

(** Removes trailing whitespace: a character is kept when it is not a
    space or when something is kept after it. *)
Fixpoint rstrip (s : string) : string :=
  match s with
  | EmptyString => EmptyString
  | String c s' =>
      match rstrip s' with
      | EmptyString => if isspace c then EmptyString else String c EmptyString
      | r => String c r
      end
  end.

(** [s.strip()] *)
Definition strip (s : string) : string := rstrip (lstrip s).

(** [s.split()]: the maximal runs of non-whitespace characters. *)
Fixpoint split_ws_aux (cur : string) (s : string) : list string :=
  match s with
  | EmptyString => if String.eqb cur EmptyString then [] else [cur]
  | String c s' =>
      if isspace c
      then (if String.eqb cur EmptyString then split_ws_aux EmptyString s'
            else cur :: split_ws_aux EmptyString s')
      else split_ws_aux (cur ++ String c EmptyString) s'
  end.

Definition split_ws (s : string) : list string := split_ws_aux EmptyString s.

(** [str(n)] for an [int]. *)
Definition of_Z (n : Z) : string := NilZero.string_of_int (Z.to_int n).

Definition of_nat (n : nat) : string := of_Z (Z.of_nat n).

Definition digit_char (d : Z) : ascii := ascii_of_nat (48 + Z.to_nat (d mod 10)).

(** The [w] low decimal digits of [n], zero padded: ['%0wd' % n] for
    [0 <= n < 10^w]. *)
Fixpoint zfill (w : nat) (n : Z) : string :=
  match w with
  | O => EmptyString
  | S w' => zfill w' (n / 10) ++ String (digit_char n) EmptyString
  end.

(** [''.join(parts)] *)
Definition join (parts : list string) : string := String.concat EmptyString parts.

(** [bool(s)] *)
Definition truthy (s : string) : bool := negb (String.eqb s EmptyString).

End Str.

(** ** [repr] *)

Module Repr.

Definition backslash : ascii := ascii_of_nat 92.

Definition single_quote : ascii := ascii_of_nat 39.

Definition double_quote : ascii := ascii_of_nat 34.

Fixpoint contains (c : ascii) (s : string) : bool :=
  match s with
  | EmptyString => false
  | String x s' => Ascii.eqb x c || contains c s'
  end.

(** The quote [repr] puts around a string: the single quote, unless the
    string holds single quotes and no double quote. *)
Definition quote_for (s : string) : ascii :=
  if contains single_quote s && negb (contains double_quote s)
  then double_quote else single_quote.

Definition hex_digit (n : nat) : ascii :=
  if Nat.ltb n 10 then ascii_of_nat (48 + n) else ascii_of_nat (87 + n).

(** The escape [\xNN] of a code point below 256. *)
Definition hex_escape (c : ascii) : string :=
  let n := nat_of_ascii c in
  String backslash
    (String "x" (String (hex_digit (n / 16)) (String (hex_digit (n mod 16)) EmptyString))).

(** [c.isprintable()] for a code point from 128 to 255: the controls up
    to 159, the no-break space (160) and the soft hyphen (173) are not. *)
Definition printable_high (n : nat) : bool := Nat.leb 161 n && negb (Nat.eqb n 173).

(** What [repr] writes for one character, inside the quote [quote]. *)
Definition escape (quote c : ascii) : string :=
  let n := nat_of_ascii c in
  if Ascii.eqb c quote || Ascii.eqb c backslash then String backslash (String c EmptyString)
  else if Nat.eqb n 9 then String backslash "t"
  else if Nat.eqb n 10 then String backslash "n"
  else if Nat.eqb n 13 then String backslash "r"
  else if Nat.ltb n 32 || Nat.eqb n 127 then hex_escape c
  else if Nat.ltb n 127 then String c EmptyString
  else if printable_high n then String c EmptyString
  else hex_escape c.

Fixpoint escape_all (quote : ascii) (s : string) : string :=
  match s with
  | EmptyString => EmptyString
  | String c s' => escape quote c ++ escape_all quote s'
  end.

(** [repr(s)] for a string. *)
Definition str (s : string) : string :=
  let quote := quote_for s in
  String quote (escape_all quote s ++ String quote EmptyString).

(** [repr(x)] for a string or [None]. *)
Definition optional (o : option string) : string :=
  match o with
  | Some s => str s
  | None => "None"
  end.

(** [repr(t)] for a tuple, from the [repr] of its elements. *)
Definition tuple (elements : list string) : string :=
  match elements with
  | [] => "()"
  | [x] => "(" ++ x ++ ",)"
  | _ => "(" ++ String.concat ", " elements ++ ")"
  end.

End Repr.

(** [str(e)] for the exceptions of [exceptions.py]: the message each
    [__init__] hands to [Exception]; the module sets no message for the
    other exceptions. *)
Definition exn_message (e : exn) : option string :=
  match e with
  | BadResponseError purpose =>
      Some ("RosterOn returned an unexpected response for an operation expecting "
            ++ Repr.str purpose)%string
  | BadCredentialsError username =>
      Some ("RosterOn rejected the login credentials for username "
            ++ Repr.str username)%string
  | NotLoggedInError =>
      Some "a RosterOn user must successfully log in before a roster can be retrieved"
  | _ => None
  end.

(** ** The parse tree of [bs4] *)

Module Bs4.

(** A page element: a [NavigableString] or a [Tag] with its name, its
    attribute dictionary and its [contents].  A parsed document (the
    [BeautifulSoup] object) is itself a [Tag], named ["[document]"]. *)
#[warnings="-register-all"] Inductive Node : Type :=
| NavigableString (s : string)
| Tag (name : string) (attrs : list (string * string)) (contents : list Node).

(** [key in tag.attrs], [tag.attrs.get(key)] *)
Fixpoint attrs_get (key : string) (attrs : list (string * string)) : option string :=
  match attrs with
  | [] => None
  | (k, v) :: rest => if String.eqb k key then Some v else attrs_get key rest
  end.

Definition attrs_of (n : Node) : list (string * string) :=
  match n with
  | NavigableString _ => []
  | Tag _ attrs _ => attrs
  end.

(** [tag[key]]: [Tag.__getitem__] returns [self.attrs[key]], a [KeyError]
    when the attribute is missing. *)
Definition getitem (n : Node) (key : string) : result string :=
  match attrs_get key (attrs_of n) with
  | Some v => Ok v
  | None => Raise KeyError
  end.

(** [tag.contents] *)
Definition contents_of (n : Node) : list Node :=
  match n with
  | NavigableString _ => []
  | Tag _ _ kids => kids
  end.

(** [tag.descendants]: every element below [n], in document order. *)
Fixpoint descendants (n : Node) : list Node :=
  match n with
  | NavigableString _ => []
  | Tag _ _ kids =>
      (fix go (l : list Node) : list Node :=
         match l with
         | [] => []
         | k :: l' => k :: descendants k ++ go l'
         end) kids
  end.

(** [tag.string]: with exactly one child, that child when it is a string
    and the child's own [.string] when it is a tag; [None] otherwise. *)
Fixpoint string_of (n : Node) : option string :=
  match n with
  | NavigableString s => Some s
  | Tag _ _ kids =>
      match kids with
      | [c] => string_of c
      | _ => None
      end
  end.

Definition is_tag (n : Node) : bool :=
  match n with
  | NavigableString _ => false
  | Tag _ _ _ => true
  end.

(** The filter of [find(attrs={key: value})]. *)
Definition has_attr_value (key value : string) (n : Node) : bool :=
  match n with
  | NavigableString _ => false
  | Tag _ attrs _ =>
      match attrs_get key attrs with
      | Some v => String.eqb v value
      | None => false
      end
  end.

(** The filter of [find(class_=value)]: the [class] attribute is a list
    of tokens, and one token or the whole attribute has to be [value]. *)
Definition has_class (value : string) (n : Node) : bool :=
  match n with
  | NavigableString _ => false
  | Tag _ attrs _ =>
      match attrs_get "class" attrs with
      | Some v =>
          existsb (String.eqb value) (Str.split_ws v)
          || String.eqb value (String.concat " " (Str.split_ws v))
      | None => false
      end
  end.

(** The filter of [find(name)]. *)
Definition has_name (name : string) (n : Node) : bool :=
  match n with
  | NavigableString _ => false
  | Tag nm _ _ => String.eqb nm name
  end.

(** [tag.find(...)]: the first descendant passing the filter, or [None]. *)
Definition find (p : Node -> bool) (n : Node) : option Node :=
  List.find p (descendants n).

(** [tag.find_all(...)]: all descendants passing the filter. *)
Definition find_all (p : Node -> bool) (n : Node) : list Node :=
  List.filter p (descendants n).

(** [tag.find_all(..., recursive=False)]: only direct children. *)
Definition find_all_children (p : Node -> bool) (n : Node) : list Node :=
  List.filter p (contents_of n).

End Bs4.

(** ** Dates and times *)

Module Datetime.

(** [datetime.date] *)
Record date : Type := mkdate { year : Z; month : Z; day : Z }.

(** The fields of a [datetime.datetime].  Where the module holds a value
    of this type, it is a time in UTC: [datetime.now(timezone.utc)], or the
    result of [astimezone(timezone.utc)]. *)
Record datetime : Type := mkdatetime {
  on : date;
  hour : Z;
  minute : Z;
  second : Z;
  microsecond : Z
}.

(** A [datetime.datetime] with the offset of its [tzinfo] from UTC, in
    seconds; [None] for a naive one.  [parsedate_to_datetime] returns
    these: naive for a header without zone or with [-0000], aware
    otherwise. *)
Record stamp : Type := mkstamp {
  clock : datetime;
  utcoffset : option Z
}.

(** A time whose [tzinfo] is [timezone.utc]. *)
Definition utc (dt : datetime) : stamp := mkstamp dt (Some 0%Z).

Definition is_leap (y : Z) : bool :=
  ((y mod 4 =? 0) && negb (y mod 100 =? 0) || (y mod 400 =? 0))%Z.

Definition days_in_month (y m : Z) : Z :=
  (if m =? 2 then (if is_leap y then 29 else 28)
   else if (m =? 4) || (m =? 6) || (m =? 9) || (m =? 11) then 30
   else 31)%Z.

(** [_days_before_year]: the days before 1 January of the year. *)
Definition days_before_year (y : Z) : Z :=
  (let y1 := y - 1 in y1 * 365 + y1 / 4 - y1 / 100 + y1 / 400)%Z.

(** [_DAYS_BEFORE_MONTH], from index 1. *)
Definition days_before_month_table (m : Z) : Z :=
  nth (Z.to_nat m) [0; 0; 31; 59; 90; 120; 151; 181; 212; 243; 273; 304; 334]%Z 0%Z.

(** [_DAYS_IN_MONTH], from index 1. *)
Definition days_in_month_table (m : Z) : Z :=
  nth (Z.to_nat m) [0; 31; 28; 31; 30; 31; 30; 31; 31; 30; 31; 30; 31]%Z 0%Z.

(** [_ymd2ord]: the ordinal of a date, 1 January of year 1 being day 1. *)
Definition ymd2ord (d : date) : Z :=
  (days_before_year (year d)
   + (days_before_month_table (month d)
      + (if (2 <? month d) && is_leap (year d) then 1 else 0))
   + day d)%Z.

(** [_ord2ymd]: the date of an ordinal. *)
Definition ord2ymd (ordinal : Z) : date :=
  (let n := ordinal - 1 in
   let n400 := n / 146097 in
   let n := n mod 146097 in
   let n100 := n / 36524 in
   let n := n mod 36524 in
   let n4 := n / 1461 in
   let n := n mod 1461 in
   let n1 := n / 365 in
   let n := n mod 365 in
   let y := n400 * 400 + 1 + n100 * 100 + n4 * 4 + n1 in
   if (n1 =? 4) || (n100 =? 4) then mkdate (y - 1) 12 31
   else
     let leapyear := (n1 =? 3) && (negb (n4 =? 24) || (n100 =? 3)) in
     let m := (n + 50) / 32 in
     let preceding :=
       days_before_month_table m + (if (2 <? m) && leapyear then 1 else 0) in
     if n <? preceding then
       let m' := m - 1 in
       let preceding' :=
         preceding
         - (days_in_month_table m' + (if (m' =? 2) && leapyear then 1 else 0)) in
       mkdate y m' (n - preceding' + 1)
     else mkdate y m (n - preceding + 1))%Z.

(** [_MAXORDINAL]: the ordinal of 31 December 9999. *)
Definition MAXORDINAL : Z := 3652059%Z.

(** [dt + timedelta(seconds=seconds)]: the fields as one count of
    microseconds, the sum split again into days and time of day, and an
    [OverflowError] when the day is outside the years 1 to 9999. *)
Definition add_seconds (dt : datetime) (seconds : Z) : result datetime :=
  (let total :=
     (((ymd2ord (on dt) * 24 + hour dt) * 60 + minute dt) * 60 + second dt) * 1000000
     + microsecond dt + seconds * 1000000 in
   let days := total / 86400000000 in
   let rest := total mod 86400000000 in
   if (0 <? days) && (days <=? MAXORDINAL)
   then Ok (mkdatetime (ord2ymd days)
                       (rest / 3600000000)
                       (rest / 60000000 mod 60)
                       (rest / 1000000 mod 60)
                       (rest mod 1000000))
   else Raise OverflowError)%Z.

(** [dt.astimezone(timezone.utc)].  A time already in UTC is returned as
    it is.  Another aware time has its offset subtracted.  A naive time is
    taken as local time: [local_utcoffset] is the offset the system zone
    gives it ([_local_timezone], which may raise), and that offset is
    subtracted.  The subtraction raises [OverflowError] outside the years 1
    to 9999. *)
Definition astimezone_utc (local_utcoffset : datetime -> result Z) (dt : stamp)
    : result datetime :=
  match utcoffset dt with
  | Some offset =>
      if (offset =? 0)%Z then Ok (clock dt) else add_seconds (clock dt) (- offset)
  | None =>
      rbind (local_utcoffset (clock dt)) (fun offset => add_seconds (clock dt) (- offset))
  end.

(** [date(year, month, day)], a [ValueError] outside the calendar. *)
Definition make_date (y m d : Z) : result date :=
  if ((1 <=? y) && (y <=? 9999) && (1 <=? m) && (m <=? 12)
      && (1 <=? d) && (d <=? days_in_month y m))%Z
  then Ok (mkdate y m d)
  else Raise ValueError.

(** *** [datetime.strptime(s, '%a %d/%m/%Y')]

    [strptime] turns the format into a regular expression, matched with
    backtracking and ignoring case, and refuses text left over after the
    match.  A matcher returns the ways it can match at the head of its
    input, in the order the expression tries them, each with the input
    left. *)
Definition matcher (A : Type) : Type := string -> list (A * string).

Definition m_seq {A B} (p : matcher A) (k : A -> matcher B) : matcher B :=
  fun s => flat_map (fun '(a, rest) => k a rest) (p s).

Definition m_ret {A} (a : A) : matcher A := fun s => [(a, s)].

Definition m_alt {A} (ps : list (matcher A)) : matcher A :=
  fun s => flat_map (fun p => p s) ps.

(** One character passing [ok]. *)
Definition m_char (ok : ascii -> bool) : matcher ascii :=
  fun s =>
    match s with
    | String c rest => if ok c then [(c, rest)] else []
    | EmptyString => []
    end.

(** A literal word, ignoring case. *)
Fixpoint m_word (w : string) : matcher unit :=
  match w with
  | EmptyString => m_ret tt
  | String c w' =>
      m_seq (m_char (fun x => Ascii.eqb (Str.lower_ascii x) (Str.lower_ascii c)))
            (fun _ => m_word w')
  end.

(** A digit between [lo] and [hi]. *)
Definition m_digit (lo hi : Z) : matcher Z :=
  m_seq (m_char (fun c => Str.isdigit c
                          && (lo <=? Str.digit_value c)%Z
                          && (Str.digit_value c <=? hi)%Z))
        (fun c => m_ret (Str.digit_value c)).

Definition m_two (lo1 hi1 lo2 hi2 : Z) : matcher Z :=
  m_seq (m_digit lo1 hi1) (fun a =>
  m_seq (m_digit lo2 hi2) (fun b => m_ret (10 * a + b)%Z)).

(** [\s+], greedy: the longest run of spaces first. *)
Fixpoint m_spaces_star (s : string) : list (unit * string) :=
  match s with
  | String c rest =>
      if Str.isspace c then m_spaces_star rest ++ [(tt, s)] else [(tt, s)]
  | EmptyString => [(tt, s)]
  end.

Definition m_spaces : matcher unit :=
  m_seq (m_char Str.isspace) (fun _ => m_spaces_star).

(** [%a]: [(?P<a>mon|tue|wed|thu|fri|sat|sun)] *)
Definition m_weekday : matcher unit :=
  m_alt (map m_word ["mon"; "tue"; "wed"; "thu"; "fri"; "sat"; "sun"]).

(** [%d]: [(?P<d>3[0-1]|[1-2]\d|0[1-9]|[1-9]| [1-9])] *)
Definition m_day : matcher Z :=
  m_alt [ m_two 3 3 0 1;
          m_two 1 2 0 9;
          m_two 0 0 1 9;
          m_digit 1 9;
          m_seq (m_word " ") (fun _ => m_digit 1 9) ].

(** [%m]: [(?P<m>1[0-2]|0[1-9]|[1-9])] *)
Definition m_month : matcher Z :=
  m_alt [ m_two 1 1 0 2; m_two 0 0 1 9; m_digit 1 9 ].

(** [%Y]: [(?P<Y>\d\d\d\d)] *)
Definition m_year : matcher Z :=
  m_seq (m_digit 0 9) (fun a =>
  m_seq (m_digit 0 9) (fun b =>
  m_seq (m_digit 0 9) (fun c =>
  m_seq (m_digit 0 9) (fun d => m_ret (1000 * a + 100 * b + 10 * c + d)%Z)))).

Definition m_format : matcher (Z * Z * Z) :=
  m_seq m_weekday (fun _ =>
  m_seq m_spaces (fun _ =>
  m_seq m_day (fun d =>
  m_seq (m_word "/") (fun _ =>
  m_seq m_month (fun m =>
  m_seq (m_word "/") (fun _ =>
  m_seq m_year (fun y => m_ret (y, m, d)))))))).

(** [datetime.strptime(s, '%a %d/%m/%Y').date()]: the first match of the
    expression; a [ValueError] when there is none, when text remains after
    it, or when the day does not exist.  The weekday name is matched and
    not compared with the date. *)
Definition strptime_date (s : string) : result date :=
  match m_format s with
  | [] => Raise ValueError
  | ((y, m, d), rest) :: _ =>
      if String.eqb rest EmptyString then make_date y m d else Raise ValueError
  end.

(** [d.isoformat()] for a date. *)
Definition date_isoformat (d : date) : string :=
  Str.zfill 4 (year d) ++ "-" ++ Str.zfill 2 (month d) ++ "-" ++ Str.zfill 2 (day d).

(** [str(dt)] for an aware UTC datetime: [isoformat(sep=' ')], the
    microseconds left out when they are zero. *)
Definition str (dt : datetime) : string :=
  date_isoformat (on dt) ++ " "
  ++ Str.zfill 2 (hour dt) ++ ":" ++ Str.zfill 2 (minute dt) ++ ":"
  ++ Str.zfill 2 (second dt)
  ++ (if (microsecond dt =? 0)%Z then EmptyString
      else "." ++ Str.zfill 6 (microsecond dt))
  ++ "+00:00".

(** [dt.strftime('%Y%m%dT%H%M%S.%fZ')] *)
Definition strftime_log (dt : datetime) : string :=
  Str.zfill 4 (year (on dt)) ++ Str.zfill 2 (month (on dt))
  ++ Str.zfill 2 (day (on dt)) ++ "T"
  ++ Str.zfill 2 (hour dt) ++ Str.zfill 2 (minute dt) ++ Str.zfill 2 (second dt)
  ++ "." ++ Str.zfill 6 (microsecond dt) ++ "Z".

End Datetime.

(** ** Data classes *)

(** A line feed; Python's ['\n']. *)
Definition nl : string := String (ascii_of_nat 10) EmptyString.

(** [xs[index]] on a tuple or list: a negative index counts from the end,
    an index outside the sequence is an [IndexError]. *)
Definition seq_getitem {A} (xs : list A) (index : Z) : result A :=
  let n := Z.of_nat (List.length xs) in
  let i := if (index <? 0)%Z then (index + n)%Z else index in
  if ((0 <=? i) && (i <? n))%Z
  then match nth_error xs (Z.to_nat i) with
       | Some x => Ok x
       | None => Raise IndexError
       end
  else Raise IndexError.

(** [enumerate(xs)] *)
Definition enumerate {A} (xs : list A) : list (nat * A) :=
  combine (seq 0 (List.length xs)) xs.

(** [class Item].  The attributes are not validated, and [get_roster]
    starts with [date] and [title] set to [None], so both are optional
    here; [detail] is a tuple of strings and [None]s. *)
Module Item.
Record t : Type := mk {
  date : option Datetime.date;
  title : option string;
  detail : list (option string)
}.

(** [Item.__str__]; [self.date.isoformat()] is evaluated first and is an
    [AttributeError] when [date] is [None]. *)
Definition __str__ (self : t) : result string :=
  match date self with
  | None => Raise AttributeError
  | Some d =>
      Ok ("<Item (date=" ++ Datetime.date_isoformat d
          ++ ", title=" ++ Repr.optional (title self)
          ++ ", detail=" ++ Repr.tuple (map Repr.optional (detail self))
          ++ ")>")%string
  end.
End Item.

(** [class Snapshot], with its sequence protocol. *)
Module Snapshot.
Record t : Type := mk {
  time : Datetime.datetime;
  items : list Item.t
}.

Definition __len__ (self : t) : nat := List.length (items self).

(** [self.items[index]] for an integer [index]. *)
Definition __getitem__ (self : t) (index : Z) : result Item.t :=
  seq_getitem (items self) index.

(** The sequence of values the iterator [iter(self.items)] yields. *)
Definition __iter__ (self : t) : list Item.t := items self.
End Snapshot.

(** [class _Response].  [content] is whatever [page_div.find] returned,
    which is [None] when the page has no content container. *)
Module _Response.
Record t : Type := mk {
  time : Datetime.datetime;
  id : string;
  content : option Bs4.Node
}.
End _Response.

(** One HTTP exchange of [requests]: the fields of a [requests.Response]
    and of its [request] that the module reads. *)
Module Exchange.
Record t : Type := mk {
  request_method : string;
  request_url : string;
  status_code : Z;
  reason : option string;
  headers : list (string * string);
  text : string
}.
End Exchange.

(** A [requests.Response]: the final exchange and, in [history], the
    intermediate ones (redirects), oldest first. *)
Module Response.
Record t : Type := mk {
  final : Exchange.t;
  history : list Exchange.t
}.

(** [[*response.history, response]] *)
Definition chain (r : t) : list Exchange.t := history r ++ [final r].
End Response.

(** [class _LogEntry] *)
Module _LogEntry.
Record t : Type := mk {
  time : Datetime.datetime;
  response : Response.t;
  purpose : string
}.
End _LogEntry.

(** ** Roster parsing: the body of [Session.get_roster] after navigation *)

(** ['data-role' in li.attrs and li['data-role'] == 'list-divider'] *)
Definition is_list_divider (li : Bs4.Node) : bool :=
  match Bs4.attrs_get "data-role" (Bs4.attrs_of li) with
  | Some v => String.eqb v "list-divider"
  | None => false
  end.

(** The items the loop of [get_roster] handles in its [else] branch. *)
Definition is_row (li : Bs4.Node) : Prop := is_list_divider li = false.

(** [tuple([p.string for p in li.find('table').find_all('p')])]; without a
    table, [find] returns [None] and [None.find_all] is an
    [AttributeError]. *)
Definition row_detail (li : Bs4.Node) : result (list (option string)) :=
  match Bs4.find (Bs4.has_name "table") li with
  | None => Raise AttributeError
  | Some table => Ok (map Bs4.string_of (Bs4.find_all (Bs4.has_name "p") table))
  end.

(** The [for li in ...] loop of [get_roster], with the loop variables
    [date], [title] and [shifts] as arguments.  [li.string] is [None] for a
    divider without a single text, and [None.partition] is an
    [AttributeError]. *)
Fixpoint roster_loop (lis : list Bs4.Node) (date : option Datetime.date)
    (title : option string) (shifts : list Item.t) : result (list Item.t) :=
  match lis with
  | [] => Ok shifts
  | li :: rest =>
      if is_list_divider li then
        match Bs4.string_of li with
        | None => Raise AttributeError
        | Some s =>
            let '(raw_date, _, title') := Str.partition " - " s in
            rbind (Datetime.strptime_date raw_date) (fun date' =>
            roster_loop rest (Some date') (Some title') shifts)
        end
      else
        rbind (row_detail li) (fun detail =>
        roster_loop rest date title (shifts ++ [Item.mk date title detail]))
  end.

(** Lines 303 to 314 of [get_roster]: from the classified response to the
    [Snapshot].  [response.content] or the list view may be [None], on which
    the next attribute access is an [AttributeError]. *)
Definition roster_of_response (response : _Response.t) : result Snapshot.t :=
  match _Response.content response with
  | None => Raise AttributeError
  | Some content =>
      match Bs4.find (Bs4.has_attr_value "data-role" "listview") content with
      | None => Raise AttributeError
      | Some list_view =>
          rbind (roster_loop (Bs4.find_all_children (Bs4.has_name "li") list_view)
                             None None [])
                (fun shifts => Ok (Snapshot.mk (_Response.time response) shifts))
      end
  end.

(** ** Login errors: the [else] branch of [Session.log_in] *)

Definition bad_credentials_message : string :=
  "Logon failure: unknown user name or bad password.".

(** [li.string.strip()]; [li.string] may be [None]. *)
Definition li_error (li : Bs4.Node) : result string :=
  match Bs4.string_of li with
  | None => Raise AttributeError
  | Some s => Ok (Str.strip s)
  end.

(** Lines 280 to 285: the exception [log_in] raises for a response that is
    not the home page (every path of the branch ends in a [raise]). *)
Definition log_in_failure (username : string) (response : _Response.t) : exn :=
  match _Response.content response with
  | None => AttributeError
  | Some content =>
      match Bs4.find (Bs4.has_class "validation-summary-errors") content with
      | None => AttributeError
      | Some error_div =>
          match rmap li_error (Bs4.find_all (Bs4.has_name "li") error_div) with
          | Raise e => e
          | Ok errors =>
              match errors with
              | [e] => if String.eqb e bad_credentials_message
                       then BadCredentialsError username
                       else BadResponseError "home"
              | _ => BadResponseError "home"
              end
          end
      end
  end.

(** ** Log files: the body of [Session.save_logs] *)

(** A file written by [save_logs]: [Path(directory) / filename] and the
    text passed to [writelines]. *)
Record File : Type := mkFile {
  directory : string;
  filename : string;
  written : string
}.

(** ['{}'.format(x)] for a string or [None]. *)
Definition format_optional (o : option string) : string :=
  match o with
  | Some s => s
  | None => "None"
  end.

(** The list handed to [file.writelines]. *)
Definition log_lines (entry : _LogEntry.t) (response : Exchange.t) : list string :=
  [ Datetime.str (_LogEntry.time entry);
    nl;
    (Exchange.request_method response ++ " " ++ Exchange.request_url response ++ nl)%string;
    (Str.of_Z (Exchange.status_code response) ++ " "
      ++ format_optional (Exchange.reason response) ++ nl)%string;
    nl ]
  ++ map (fun '(key, value) => (key ++ ": " ++ value ++ nl)%string)
         (Exchange.headers response)
  ++ [ nl; Exchange.text response ].

Definition log_filename (entry : _LogEntry.t) (index : nat) : string :=
  (Datetime.strftime_log (_LogEntry.time entry) ++ "-" ++ _LogEntry.purpose entry
   ++ "-" ++ Str.of_nat index ++ ".txt")%string.

(** The inner loop of [save_logs]: one file per exchange of the entry. *)
Definition entry_files (dir : string) (entry : _LogEntry.t) : list File :=
  map (fun '(index, response) =>
         mkFile dir (log_filename entry index) (Str.join (log_lines entry response)))
      (enumerate (Response.chain (_LogEntry.response entry))).

(** The files [save_logs] writes for a log, in the order it writes them. *)
Definition log_files (dir : string) (log : list _LogEntry.t) : list File :=
  flat_map (entry_files dir) log.

(** ** The browser, the session and the world around them *)

(** A cookie of the browser's [RequestsCookieJar]. *)
Record Cookie : Type := mkCookie {
  cookie_name : string;
  cookie_value : option string
}.

Definition CookieJar : Type := list Cookie.

(** The state of a [mechanicalsoup.StatefulBrowser]: the cookie jar of its
    [requests] session, the current page and the selected form. *)
Module Browser.
Record t : Type := mk {
  cookiejar : CookieJar;
  page : option Bs4.Node;
  form : option Bs4.Node
}.
End Browser.

(** [class Session]: the base URL, the browser and the log. *)
Module Session.
Record t : Type := mk {
  url : string;
  browser : Browser.t;
  _log : list _LogEntry.t
}.
End Session.

(** A call of the browser: a navigation to a URL ([open]) or the
    submission of the selected form ([submit_selected]).  The redirects
    the server answers with are followed inside the call, one HTTP
    request per hop. *)
Inductive Request : Type :=
| Navigate (url : string)
| Submit (form : Bs4.Node).

(** The end of an HTTP exchange, redirects followed: a response, with
    the parsed page ([None] when the body is not HTML) and the cookie jar
    after it, or a [RequestException], with the cookie jar as the hops
    answered before the failure left it. *)
Inductive Outcome : Type :=
| Responded (response : Response.t) (soup : option Bs4.Node) (jar : CookieJar)
| Failed (jar : CookieJar).

(** Everything a method of [Session] can read or change: the session, the
    number of times the clock was read, the calls of the browser made so
    far and the files written. *)
Record World : Type := mkWorld {
  session : Session.t;
  clock_reads : nat;
  sent : list Request;
  files : list File
}.

Definition M (A : Type) : Type := World -> result A * World.

Definition ret {A} (a : A) : M A := fun w => (Ok a, w).

Definition raise {A} (e : exn) : M A := fun w => (Raise e, w).

Definition bind {A B} (c : M A) (k : A -> M B) : M B :=
  fun w =>
    match c w with
    | (Ok a, w') => k a w'
    | (Raise e, w') => (Raise e, w')
    end.

Notation "x <- c ;; k" := (bind c (fun x => k))
  (at level 61, c at next level, right associativity).
Notation "c ;;; k" := (bind c (fun _ => k))
  (at level 61, right associativity).

(** [try: c except ...: handler] *)
Definition try_except {A} (c : M A) (handler : exn -> M A) : M A :=
  fun w =>
    match c w with
    | (Ok a, w') => (Ok a, w')
    | (Raise e, w') => handler e w'
    end.

Definition lift {A} (r : result A) : M A := fun w => (r, w).

Definition get_session : M Session.t := fun w => (Ok (session w), w).

Definition set_browser (b : Browser.t) : M unit :=
  fun w =>
    (Ok tt,
     mkWorld (Session.mk (Session.url (session w)) b (Session._log (session w)))
             (clock_reads w) (sent w) (files w)).

(** [self._log.append(entry)] *)
Definition log_append (entry : _LogEntry.t) : M unit :=
  fun w =>
    (Ok tt,
     mkWorld (Session.mk (Session.url (session w)) (Session.browser (session w))
                         (Session._log (session w) ++ [entry]))
             (clock_reads w) (sent w) (files w)).

Definition write_files (fs : list File) : M unit :=
  fun w => (Ok tt, mkWorld (session w) (clock_reads w) (sent w) (files w ++ fs)).

(** [response.headers.get(name)] on the case-insensitive dictionary of
    [requests]. *)
Fixpoint headers_get (name : string) (headers : list (string * string)) : option string :=
  match headers with
  | [] => None
  | (k, v) :: rest =>
      if String.eqb (Str.lower k) (Str.lower name) then Some v
      else headers_get name rest
  end.

(** [bool(url_fragment)] for an optional string. *)
Definition fragment_given (url_fragment : option string) : option string :=
  match url_fragment with
  | Some f => if Str.truthy f then Some f else None
  | None => None
  end.

(** ** Sample pages and a sample network

    The pages follow the structure the portal serves, reduced to the
    elements the module looks at. *)

Module Fixture.
Import Bs4.

Definition TEST_URL : string := "http://example.com/RosterOnProd/Mobile".

Definition document (body : list Node) : Node :=
  Tag "[document]" [] [Tag "html" [] [Tag "body" [] body]].

Definition content_div (content : list Node) : Node :=
  Tag "div" [("data-role", "content")] content.

Definition page (id : string) (content : list Node) : Node :=
  Tag "div" [("data-role", "page"); ("id", id)]
      [Tag "div" [("data-role", "header")] []; content_div content].

Definition login_form : Node :=
  Tag "form" [("action", "/RosterOnProd/Mobile/Account/Login"); ("method", "post")]
      [Tag "input" [("name", "UserName"); ("type", "text")] [];
       Tag "input" [("name", "Password"); ("type", "password")] []].

Definition validation_errors (messages : list string) : Node :=
  Tag "div" [("class", "validation-summary-errors")]
      [Tag "ul" [] (map (fun m => Tag "li" [] [NavigableString m]) messages)].

Definition login_html : Node := document [page "account-login" [login_form]].

Definition home_html : Node := document [page "home-index" []].

Definition login_badcreds_html : Node :=
  document [page "account-login"
                 [validation_errors [bad_credentials_message]; login_form]].

Definition login_baderror_html : Node :=
  document [page "account-login"
                 [validation_errors ["The account is locked."]; login_form]].

(** A page that is no portal page at all. *)
Definition unexpected_html : Node :=
  document [Tag "h1" [] [NavigableString "Server Error"]].

(** A page container without the [id] attribute. *)
Definition page_without_id_html : Node :=
  document [Tag "div" [("data-role", "page")]
                [Tag "div" [("data-role", "content")] []]].

(** A page container without a content container. *)
Definition page_without_content_html : Node :=
  document [Tag "div" [("data-role", "page"); ("id", "account-login")]
                [Tag "div" [("data-role", "header")] []]].

Definition divider (text : string) : Node :=
  Tag "li" [("data-role", "list-divider")] [NavigableString text].

Definition row (cells : list (list Node)) : Node :=
  Tag "li" []
      [Tag "a" [("href", "#")]
           [Tag "table" []
                [Tag "tr" [] (map (fun c => Tag "td" [] [Tag "p" [] c]) cells)]]].

Definition shift_row : Node :=
  row [[NavigableString "10:30 - 18:06"]; []; [NavigableString "XYZ"];
       [NavigableString "Assistant"]].

Definition shift_detail : list (option string) :=
  [Some "10:30 - 18:06"; None; Some "XYZ"; Some "Assistant"].

Definition list_view (lis : list Node) : Node :=
  Tag "ul" [("data-role", "listview")] lis.

Definition roster_page (lis : list Node) : Node :=
  document [page "roster-list" [list_view lis]].

Definition roster_html : Node :=
  roster_page [divider "Tue 11/06/2019 - ABCDE - Melbourne Office"; shift_row].



(** A listing whose first item is a row, before any divider. *)
Definition roster_undated_html : Node :=
  roster_page [shift_row; divider "Tue 11/06/2019 - ABCDE - Melbourne Office";
               shift_row].

Definition server_time : Datetime.datetime :=
  Datetime.mkdatetime (Datetime.mkdate 2019 6 10) 4 28 38 0.

Definition client_time (k : nat) : Datetime.datetime :=
  Datetime.mkdatetime (Datetime.mkdate 2019 6 10) 4 28 37 (160169 + Z.of_nat k).

Definition parsedate (value : string) : result Datetime.stamp :=
  if String.eqb value "Mon, 10 Jun 2019 04:28:38 GMT" then Ok (Datetime.utc server_time)
  else if String.eqb value "Mon, 10 Jun 2019 14:28:38 +1000"
  then Ok (Datetime.mkstamp (Datetime.mkdatetime (Datetime.mkdate 2019 6 10) 14 28 38 0)
                            (Some 36000%Z))
  else if String.eqb value "Fri, 31 Dec 9999 23:59:59 -0100"
  then Ok (Datetime.mkstamp (Datetime.mkdatetime (Datetime.mkdate 9999 12 31) 23 59 59 0)
                            (Some (-3600)%Z))
  else Raise ValueError.

(** A machine whose local time is UTC. *)
Definition local_utcoffset (dt : Datetime.datetime) : result Z := Ok 0%Z.

(** Membership by name, for jars whose cookies all have a value. *)
Definition cookie_in (name : string) (jar : CookieJar) : bool :=
  existsb (fun c => String.eqb (cookie_name c) name) jar.

(** Sets a field the form has an [input] for. *)
Definition setitem (form : Node) (name value : string) : result Node :=
  match find (fun n => has_name "input" n && has_attr_value "name" name n) form with
  | Some _ => Ok form
  | None => Raise LinkNotFoundError
  end.

Definition ok_exchange (method url : string) (headers : list (string * string))
    (text : string) : Exchange.t :=
  Exchange.mk method url 200 None headers text.

Definition respond (method url : string) (text : string) (soup : Node)
    (jar : CookieJar) : Outcome :=
  Responded (Response.mk (ok_exchange method url [] text) []) (Some soup) jar.

Definition auth_cookie : Cookie := mkCookie ".ASPXAUTH" (Some "XXX").

(** A server that serves the login page, answers every login with
    [after_login], serves [roster] as the listing and logs out. *)
Definition server (after_login roster : Node) (k : nat) (req : Request)
    (jar : CookieJar) : Outcome :=
  match req with
  | Navigate url =>
      if String.eqb url (TEST_URL ++ "/Account/Login")
      then respond "GET" url "<login>" login_html jar
      else if String.eqb url (TEST_URL ++ "/Roster/List?pageNo=1&row=1")
      then respond "GET" url "<roster>" roster jar
      else if String.eqb url (TEST_URL ++ "/Account/LogOff")
      then respond "GET" url "<login>" login_html []
      else Failed jar
  | Submit _ =>
      respond "POST" (TEST_URL ++ "/Account/Login") "<home>" after_login
              (auth_cookie :: jar)
  end.

(** A server that answers every request with the page [soup] and the
    response headers [headers]. *)
Definition static_server (headers : list (string * string)) (soup : Node)
    (k : nat) (req : Request) (jar : CookieJar) : Outcome :=
  Responded (Response.mk (ok_exchange "GET" TEST_URL headers "<html>") [])
            (Some soup) jar.

(** A login page whose form has no [UserName] field. *)
Definition login_without_username_html : Node :=
  document [page "account-login"
                 [Tag "form" [("method", "post")]
                      [Tag "input" [("name", "Password"); ("type", "password")] []]]].

(** A network that is down. *)
Definition offline (k : nat) (req : Request) (jar : CookieJar) : Outcome := Failed jar.

(** A network that fails after a redirect has emptied the cookie jar. *)
Definition failing_after_clearing (k : nat) (req : Request) (jar : CookieJar)
    : Outcome := Failed [].

(** The classified response for a listing of [lis]. *)
Definition roster_response (lis : list Node) : _Response.t :=
  _Response.mk (client_time 0) "roster-list" (Some (content_div [list_view lis])).

(** The entry [_browse] records for the login page. *)
Definition login_entry : _LogEntry.t :=
  _LogEntry.mk (client_time 0)
    (Response.mk (Exchange.mk "GET" (TEST_URL ++ "/Account/Login") 200 None
                    [("Date", "Mon, 10 Jun 2019 04:28:38 GMT");
                     ("Content-Type", "text/html; charset=utf-8")]
                    "<!DOCTYPE html>")
                 [])
    "login".

Definition fresh_session : Session.t :=
  Session.mk TEST_URL (Browser.mk [] None None) [].

Definition fresh : World := mkWorld fresh_session 0 [] [].

Definition logged_in : World :=
  mkWorld (Session.mk TEST_URL (Browser.mk [auth_cookie] (Some home_html) None) [])
          0 [] [].

End Fixture.

(** The request a call of [_browse] hands to the browser: a navigation
    below the base URL for a fragment that is given, the submission of the
    selected form otherwise, and none when no form is selected. *)
Definition request_of (self : Session.t) (url_fragment : option string) : option Request :=
  match fragment_given url_fragment with
  | Some fragment => Some (Navigate (Session.url self ++ "/" ++ fragment))
  | None =>
      match Browser.form (Session.browser self) with
      | Some form => Some (Submit form)
      | None => None
      end
  end.

(** The layout of a log file in the words of the specification: the
    timestamp line, the request line, the status line, the headers right
    after it, a blank line and the body. *)
Definition layout_without_blank_line (entry : _LogEntry.t) (response : Exchange.t) : string :=
  Datetime.str (_LogEntry.time entry) ++ nl
  ++ Exchange.request_method response ++ " " ++ Exchange.request_url response ++ nl
  ++ Str.of_Z (Exchange.status_code response) ++ " "
  ++ format_optional (Exchange.reason response) ++ nl
  ++ Str.join (map (fun '(key, value) => (key ++ ": " ++ value ++ nl)%string)
                   (Exchange.headers response))
  ++ nl
  ++ Exchange.text response.

(** A character [repr] writes as it is inside single quotes: printable
    ASCII other than the single quote and the backslash. *)
Definition plain_char (c : ascii) : bool :=
  let n := nat_of_ascii c in
  Nat.leb 32 n && Nat.ltb n 127 && negb (Nat.eqb n 39) && negb (Nat.eqb n 92).

Fixpoint plain (s : string) : bool :=
  match s with
  | EmptyString => true
  | String c s' => plain_char c && plain s'
  end.

(** The rows of a listing: the items that are no dividers, in page
    order. *)
Definition rows_of (lis : list Bs4.Node) : list Bs4.Node :=
  filter (fun li => negb (is_list_divider li)) lis.

(** An item with a date and a title. *)
Definition dated (item : Item.t) : Prop :=
  Item.date item <> None /\ Item.title item <> None.

(** A calendar date. *)
Definition valid_date (d : Datetime.date) : Prop :=
  (1 <= Datetime.year d <= 9999
   /\ 1 <= Datetime.month d <= 12
   /\ 1 <= Datetime.day d <= Datetime.days_in_month (Datetime.year d) (Datetime.month d))%Z.

(** [w'] is [w] after some calls of the browser and some entries logged:
    the base URL and the files are the same, the calls [requests] were
    made after those of [w], and entries with the purposes [purposes] were
    appended to the log, in this order. *)
Definition grown_by (requests : list Request) (purposes : list string)
    (w w' : World) : Prop :=
  Session.url (session w') = Session.url (session w)
  /\ files w' = files w
  /\ sent w' = sent w ++ requests
  /\ exists entries,
       Session._log (session w') = Session._log (session w) ++ entries
       /\ map _LogEntry.purpose entries = purposes.

Section Methods.

(** [email.utils.parsedate_to_datetime]: the time a [Date] header names,
    or the exception for a header it cannot read. *)
Variable parsedate_to_datetime : string -> result Datetime.stamp.

(** The offset from UTC, in seconds, that the system's time zone gives a
    naive time, or the exception of the system call that looks it up. *)
Variable local_utcoffset : Datetime.datetime -> result Z.

(** [Form.__setitem__] of [mechanicalsoup]: the form with the field set,
    or the exception for a field the form does not have. *)
Variable form_setitem : Bs4.Node -> string -> string -> result Bs4.Node.

(** [name in jar] on the cookie jar of [requests]
    ([RequestsCookieJar.__contains__]). *)
Variable cookie_in : string -> CookieJar -> bool.

(** [datetime.now(timezone.utc)] at the [k]-th reading of the clock. *)
Variable now : nat -> Datetime.datetime.

(** The network: what the [k]-th request ends with, given the request
    and the cookies sent with it. *)
Variable transport : nat -> Request -> CookieJar -> Outcome.

Definition datetime_now : M Datetime.datetime :=
  fun w =>
    (Ok (now (clock_reads w)),
     mkWorld (session w) (S (clock_reads w)) (sent w) (files w)).

(** One exchange with the network.  A response replaces the browser's
    page and cookie jar and clears the selected form; a failure leaves the
    page and the form and may have changed the cookie jar. *)
Definition exchange (req : Request) : M Response.t :=
  fun w =>
    let s := session w in
    let sent' := sent w ++ [req] in
    match transport (List.length (sent w)) req (Browser.cookiejar (Session.browser s)) with
    | Failed jar =>
        (Raise RequestException,
         mkWorld (Session.mk (Session.url s)
                    (Browser.mk jar (Browser.page (Session.browser s))
                                (Browser.form (Session.browser s)))
                    (Session._log s))
                 (clock_reads w) sent' (files w))
    | Responded response soup jar =>
        (Ok response,
         mkWorld (Session.mk (Session.url s) (Browser.mk jar soup None) (Session._log s))
                 (clock_reads w) sent' (files w))
    end.

(** [self.browser.open(url)] *)
Definition browser_open (url : string) : M Response.t := exchange (Navigate url).

(** [self.browser.submit_selected()]; without a selected form the
    [form] property raises an [AttributeError]. *)
Definition browser_submit_selected : M Response.t :=
  s <- get_session ;;
  match Browser.form (Session.browser s) with
  | None => raise AttributeError
  | Some form => exchange (Submit form)
  end.

(** [self.browser.select_form()]: the first [form] of the page. *)
Definition browser_select_form : M unit :=
  s <- get_session ;;
  let b := Session.browser s in
  match Browser.page b with
  | None => raise AttributeError
  | Some page =>
      match Bs4.find (Bs4.has_name "form") page with
      | None => raise LinkNotFoundError
      | Some form => set_browser (Browser.mk (Browser.cookiejar b) (Browser.page b) (Some form))
      end
  end.

(** [form[name] = value] on the selected form. *)
Definition form_set (name value : string) : M unit :=
  s <- get_session ;;
  let b := Session.browser s in
  match Browser.form b with
  | None => raise AttributeError
  | Some form =>
      form' <- lift (form_setitem form name value) ;;
      set_browser (Browser.mk (Browser.cookiejar b) (Browser.page b) (Some form'))
  end.

(** [Session.is_logged_in] *)
Definition is_logged_in (self : Session.t) : bool :=
  cookie_in ".ASPXAUTH" (Browser.cookiejar (Session.browser self)).

(** The [try] block that ends [_browse], lines 443 to 449: [soup] is
    [None] for a body that is not HTML, and [soup.find] is then an
    [AttributeError]; [page_div['id']] is a [TypeError] on [None] and a
    [KeyError] on a tag without the attribute; the result of
    [page_div.find] is stored as it is; [dt.astimezone(timezone.utc)] is
    evaluated last, when the [_Response] is built. *)
Definition classify (purpose : string) (dt : Datetime.stamp)
    (soup : option Bs4.Node) : result _Response.t :=
  let attempt :=
    match soup with
    | None => Raise AttributeError
    | Some soup =>
        match Bs4.find (Bs4.has_attr_value "data-role" "page") soup with
        | None => Raise TypeError
        | Some page_div =>
            rbind (Bs4.getitem page_div "id") (fun page_id =>
            let content_div :=
              Bs4.find (Bs4.has_attr_value "data-role" "content") page_div in
            rbind (Datetime.astimezone_utc local_utcoffset dt) (fun time =>
            Ok (_Response.mk time page_id content_div)))
        end
    end in
  match attempt with
  | Raise AttributeError | Raise TypeError => Raise (BadResponseError purpose)
  | other => other
  end.

(** [Session._browse] *)
Definition _browse (url_fragment : option string) (purpose : string) : M _Response.t :=
  request_time <- datetime_now ;;
  response <-
    try_except
      (match fragment_given url_fragment with
       | Some fragment =>
           s <- get_session ;;
           browser_open (Session.url s ++ "/" ++ fragment)
       | None => browser_submit_selected
       end)
      (fun e =>
         match e with
         | RequestException => raise (BadResponseError purpose)
         | _ => raise e
         end) ;;
  log_append (_LogEntry.mk request_time response purpose) ;;;
  dt <- match headers_get "Date" (Exchange.headers (Response.final response)) with
        | Some value => lift (parsedate_to_datetime value)
        | None => ret (Datetime.utc request_time)
        end ;;
  s <- get_session ;;
  lift (classify purpose dt (Browser.page (Session.browser s))).

(** [Session.log_in]; the method returns [self], here [tt]. *)
Definition log_in (username password : string) : M unit :=
  _browse (Some "Account/Login") "login" ;;;
  browser_select_form ;;;
  form_set "UserName" username ;;;
  form_set "Password" password ;;;
  response <- _browse None "home" ;;
  if String.eqb (_Response.id response) "home-index" then ret tt
  else raise (log_in_failure username response).

(** [Session.get_roster] *)
Definition get_roster : M Snapshot.t :=
  response <- _browse (Some "Roster/List?pageNo=1&row=1") "roster" ;;
  if String.eqb (_Response.id response) "account-login" then raise NotLoggedInError
  else lift (roster_of_response response).

(** [Session.log_out] *)
Definition log_out : M unit :=
  s <- get_session ;;
  if is_logged_in s then _browse (Some "Account/LogOff") "logout" ;;; ret tt
  else ret tt.

(** [Session.save_logs] *)
Definition save_logs (dir : string) : M unit :=
  s <- get_session ;;
  write_files (log_files dir (Session._log s)).

(** [Session.__exit__]; [exc] is the exception raised inside the [with]
    block, if any, and is not used. *)
Definition __exit__ (exc : option exn) : M bool :=
  log_out ;;; ret false.

(** [with session: body].  [__enter__], inherited from
    [AbstractContextManager], returns the session.  [__exit__] runs when
    the body ends, with the exception the body raised, if any; the
    exception is raised again unless [__exit__] returns [True], and an
    exception of [__exit__] itself takes its place.  The result is [None]
    when the body's exception was suppressed. *)
Definition with_session {A} (body : M A) : M (option A) :=
  fun w =>
    match body w with
    | (Ok a, w1) =>
        match __exit__ None w1 with
        | (Ok _, w2) => (Ok (Some a), w2)
        | (Raise e', w2) => (Raise e', w2)
        end
    | (Raise e, w1) =>
        match __exit__ (Some e) w1 with
        | (Ok true, w2) => (Ok None, w2)
        | (Ok false, w2) => (Raise e, w2)
        | (Raise e', w2) => (Raise e', w2)
        end
    end.


(** ** Properties *)

(** *** The sequence protocol of [Snapshot] *)

Lemma seq_getitem_nth {A} (xs : list A) (i : nat) (x : A) :
  nth_error xs i = Some x -> seq_getitem xs (Z.of_nat i) = Ok x.
Proof.
  intros Hnth.
  assert (Hlt : i < List.length xs) by (apply nth_error_Some; congruence).
  unfold seq_getitem.
  destruct (Z.of_nat i <? 0)%Z eqn:Hneg; [apply Z.ltb_lt in Hneg; lia|].
  replace ((0 <=? Z.of_nat i) && (Z.of_nat i <? Z.of_nat (List.length xs)))%Z with true.
  - now rewrite Nat2Z.id, Hnth.
  - symmetry. apply andb_true_iff. split; [apply Z.leb_le | apply Z.ltb_lt]; lia.
Qed.

(** C8. A snapshot built from a sequence of items has the length of the
    sequence, returns the [i]-th item of the sequence at every index [i]
    below the length, and iterates over the items in that same order;
    three items of one date and title make a snapshot of length 3. *)
Theorem snapshot_is_the_item_sequence :
  forall (time : Datetime.datetime) (its : list Item.t),
    let snapshot := Snapshot.mk time its in
    Snapshot.__len__ snapshot = List.length its
    /\ (forall i, i < Snapshot.__len__ snapshot ->
          exists item, nth_error its i = Some item
                       /\ Snapshot.__getitem__ snapshot (Z.of_nat i) = Ok item
                       /\ nth_error (Snapshot.__iter__ snapshot) i = Some item)
    /\ Snapshot.__iter__ snapshot = its
    /\ (forall date title d0 d1 d2,
          Snapshot.__len__
            (Snapshot.mk time [Item.mk date title d0; Item.mk date title d1;
                               Item.mk date title d2]) = 3).
Proof.
  intros time its snapshot. repeat split.
  intros i Hi. cbn in Hi.
  destruct (nth_error its i) as [item|] eqn:Hnth.
  - exists item. repeat split; trivial.
    unfold Snapshot.__getitem__; cbn. now apply seq_getitem_nth.
  - apply nth_error_None in Hnth. lia.
Qed.

(** *** Logging out and leaving a [with] block *)

(** C7. Without the auth cookie in the cookie store, [log_out] returns
    normally and leaves the world as it was: no request is sent, the log
    gets no entry and the session is unchanged. *)
Theorem log_out_when_logged_out :
  forall w : World,
    is_logged_in (session w) = false ->
    log_out w = (Ok tt, w).
Proof.
  intros w H. unfold log_out, bind, get_session. now rewrite H.
Qed.

(** C5. When the roster navigation is classified as the login page,
    [get_roster] raises [NotLoggedInError], whatever the content of the
    page, and returns no snapshot. *)
Theorem get_roster_on_login_page :
  forall (w w' : World) (response : _Response.t),
    _browse (Some "Roster/List?pageNo=1&row=1") "roster" w = (Ok response, w') ->
    _Response.id response = "account-login" ->
    get_roster w = (Raise NotLoggedInError, w').
Proof.
  intros w w' response Hbrowse Hid.
  unfold get_roster, bind. rewrite Hbrowse, Hid. reflexivity.
Qed.

Lemma exit_runs_log_out (exc : option exn) (w : World) :
  __exit__ exc w =
  match log_out w with
  | (Ok _, w') => (Ok false, w')
  | (Raise e, w') => (Raise e, w')
  end.
Proof.
  unfold __exit__, bind. destruct (log_out w) as [[[]|e] w']; reflexivity.
Qed.

(** C6. Leaving a [with] block runs [log_out], after a body that
    returned and after one that raised: [__exit__] is [log_out] followed
    by the answer [False], so it never asks for the exception to be
    suppressed, and a block whose body raised ends with an exception, the
    body's own unless [log_out] raised one in its place. *)
Theorem with_block_logs_out_and_suppresses_nothing :
  (forall exc w,
      __exit__ exc w =
      match log_out w with
      | (Ok _, w') => (Ok false, w')
      | (Raise e, w') => (Raise e, w')
      end)
  /\ (forall exc w b w', __exit__ exc w = (Ok b, w') -> b = false)
  /\ (forall (A : Type) (body : M A) w a w1,
        body w = (Ok a, w1) ->
        snd (with_session body w) = snd (log_out w1)
        /\ (fst (log_out w1) = Ok tt -> fst (with_session body w) = Ok (Some a)))
  /\ (forall (A : Type) (body : M A) w e w1,
        body w = (Raise e, w1) ->
        snd (with_session body w) = snd (log_out w1)
        /\ (exists e', fst (with_session body w) = Raise e')
        /\ (fst (log_out w1) = Ok tt -> fst (with_session body w) = Raise e)).
Proof.
  split; [exact exit_runs_log_out|]. split; [|split].
  - intros exc w b w' H. rewrite exit_runs_log_out in H.
    destruct (log_out w) as [[[]|e] w1]; cbn in H; congruence.
  - intros A body w a w1 Hbody. unfold with_session. rewrite Hbody.
    rewrite exit_runs_log_out.
    destruct (log_out w1) as [[[]|e] w2]; cbn; split; trivial; congruence.
  - intros A body w e w1 Hbody. unfold with_session. rewrite Hbody.
    rewrite exit_runs_log_out.
    destruct (log_out w1) as [[[]|e'] w2]; cbn; repeat split; eauto; congruence.
Qed.

(** *** Strings *)

Lemma append_nil_r (s : string) : (s ++ EmptyString)%string = s.
Proof. induction s; cbn; congruence. Qed.

Lemma append_assoc (a b c : string) : ((a ++ b) ++ c)%string = (a ++ (b ++ c))%string.
Proof. induction a; cbn; congruence. Qed.

Lemma join_cons (x : string) (xs : list string) :
  Str.join (x :: xs) = (x ++ Str.join xs)%string.
Proof.
  unfold Str.join. destruct xs; cbn; [now rewrite append_nil_r | reflexivity].
Qed.

Lemma join_app (xs ys : list string) :
  Str.join (xs ++ ys) = (Str.join xs ++ Str.join ys)%string.
Proof.
  induction xs as [|x xs IH]; [reflexivity|].
  change ((x :: xs) ++ ys) with (x :: (xs ++ ys)).
  now rewrite !join_cons, IH, append_assoc.
Qed.

Lemma partition_found_unfold (sep s : string) :
  Str.partition_found sep s =
  if Str.startswith sep s then Some (EmptyString, Str.drop (String.length sep) s)
  else match s with
       | EmptyString => None
       | String c s' =>
           match Str.partition_found sep s' with
           | Some (h, t) => Some (String c h, t)
           | None => None
           end
       end.
Proof. destruct s; reflexivity. Qed.




(** *** The roster loop *)

(** A run of rows adds one item per row, all with the date and title in
    force, and leaves date and title as they are. *)
Lemma roster_loop_rows (rows rest : list Bs4.Node) :
  forall date title shifts details,
    Forall is_row rows ->
    rmap row_detail rows = Ok details ->
    roster_loop (rows ++ rest) date title shifts =
    roster_loop rest date title (shifts ++ map (Item.mk date title) details).
Proof.
  induction rows as [|li rows IH]; intros date title shifts details Hrows Hdet.
  - cbn in Hdet. injection Hdet as <-. cbn. now rewrite app_nil_r.
  - inversion Hrows as [|? ? Hli Hrows']; subst.
    cbn in Hdet. cbn [app roster_loop]. unfold is_row in Hli. rewrite Hli.
    destruct (row_detail li) as [d|e]; cbn in Hdet; [|discriminate].
    destruct (rmap row_detail rows) as [ds|e]; cbn in Hdet; [|discriminate].
    injection Hdet as <-. cbn [rbind].
    rewrite (IH date title _ ds Hrows' eq_refl).
    cbn [map]. now rewrite <- app_assoc.
Qed.

(** A divider replaces the date and the title and adds no item. *)
Lemma roster_loop_divider (divider : Bs4.Node) (text : string) (rest : list Bs4.Node) :
  forall date title shifts,
    is_list_divider divider = true ->
    Bs4.string_of divider = Some text ->
    roster_loop (divider :: rest) date title shifts =
    rbind (Datetime.strptime_date (fst (fst (Str.partition " - " text))))
          (fun date' =>
             roster_loop rest (Some date') (Some (snd (Str.partition " - " text))) shifts).
Proof.
  intros date title shifts Hdiv Htext. cbn [roster_loop]. rewrite Hdiv, Htext.
  destruct (Str.partition " - " text) as [[raw sep] title']. reflexivity.
Qed.


(** The loop only ever appends to [shifts]. *)
Lemma roster_loop_extends (lis : list Bs4.Node) :
  forall date title shifts final,
    roster_loop lis date title shifts = Ok final ->
    exists more, final = shifts ++ more.
Proof.
  induction lis as [|li lis IH]; intros date title shifts final H.
  - cbn in H. injection H as <-. exists []. now rewrite app_nil_r.
  - cbn [roster_loop] in H. destruct (is_list_divider li).
    + destruct (Bs4.string_of li) as [s|]; [|discriminate].
      destruct (Str.partition " - " s) as [[raw sep] title'].
      destruct (Datetime.strptime_date raw) as [d|e]; cbn in H; [|discriminate].
      eapply IH; eassumption.
    + destruct (row_detail li) as [d|e]; cbn in H; [|discriminate].
      apply IH in H. destruct H as [more ->].
      exists (Item.mk date title d :: more). now rewrite <- app_assoc.
Qed.

Lemma roster_of_response_unfold (response : _Response.t) (content list_view : Bs4.Node) :
  _Response.content response = Some content ->
  Bs4.find (Bs4.has_attr_value "data-role" "listview") content = Some list_view ->
  roster_of_response response =
  rbind (roster_loop (Bs4.find_all_children (Bs4.has_name "li") list_view) None None [])
        (fun shifts => Ok (Snapshot.mk (_Response.time response) shifts)).
Proof. intros Hc Hl. unfold roster_of_response. now rewrite Hc, Hl. Qed.

(** [get_roster] once the navigation returned a page that is not the
    login page. *)
Lemma get_roster_after_browse (w w' : World) (response : _Response.t) :
  _browse (Some "Roster/List?pageNo=1&row=1") "roster" w = (Ok response, w') ->
  _Response.id response <> "account-login" ->
  get_roster w = (roster_of_response response, w').
Proof.
  intros Hbrowse Hid. unfold get_roster, bind. rewrite Hbrowse.
  apply String.eqb_neq in Hid. now rewrite Hid.
Qed.



(** C10. The rows that come before the first divider of the listing
    [get_roster] reads are turned into items whose date and title are both
    [None]: [get_roster] goes on after them with exactly those items
    gathered, returns those items for a listing made of such rows only,
    and every snapshot it returns starts with them. *)
Theorem rows_before_first_divider_are_undated :
  forall w w' response content list_view rows rest details,
    _browse (Some "Roster/List?pageNo=1&row=1") "roster" w = (Ok response, w') ->
    _Response.id response <> "account-login" ->
    _Response.content response = Some content ->
    Bs4.find (Bs4.has_attr_value "data-role" "listview") content = Some list_view ->
    Bs4.find_all_children (Bs4.has_name "li") list_view = rows ++ rest ->
    Forall is_row rows ->
    rmap row_detail rows = Ok details ->
    get_roster w =
      (rbind (roster_loop rest None None (map (Item.mk None None) details))
             (fun shifts => Ok (Snapshot.mk (_Response.time response) shifts)), w')
    /\ (rest = [] ->
        get_roster w =
        (Ok (Snapshot.mk (_Response.time response) (map (Item.mk None None) details)),
         w'))
    /\ (forall snapshot,
          fst (get_roster w) = Ok snapshot ->
          exists more,
            Snapshot.items snapshot = map (Item.mk None None) details ++ more).
Proof.
  intros w w' response content list_view rows rest details
         Hbrowse Hid Hc Hl Hlis Hrows Hdet.
  assert (Heq : get_roster w =
                (rbind (roster_loop rest None None (map (Item.mk None None) details))
                       (fun shifts => Ok (Snapshot.mk (_Response.time response) shifts)),
                 w')).
  { rewrite (get_roster_after_browse w w' response Hbrowse Hid). f_equal.
    rewrite (roster_of_response_unfold response content list_view Hc Hl), Hlis.
    now rewrite (roster_loop_rows rows rest None None [] details Hrows Hdet). }
  split; [exact Heq|]. split.
  - intros ->. rewrite Heq. reflexivity.
  - intros snapshot Hs. rewrite Heq in Hs. cbn [fst] in Hs.
    destruct (roster_loop rest None None (map (Item.mk None None) details))
      as [final|e] eqn:Hloop; cbn in Hs; [|discriminate].
    injection Hs as <-. cbn. eapply roster_loop_extends. eassumption.
Qed.

(** *** Log files *)

Lemma in_enumerate_from {A} (l : list A) :
  forall a i x,
    In (i, x) (combine (seq a (List.length l)) l) <->
    a <= i /\ nth_error l (i - a) = Some x.
Proof.
  induction l as [|y l IH]; intros a i x; cbn [List.length seq combine].
  - split; [intros [] | intros [_ H]]. now destruct (i - a).
  - cbn [In]. rewrite IH. split.
    + intros [H | [Hle Hnth]].
      * injection H as <- <-. split; [lia|]. now rewrite Nat.sub_diag.
      * split; [lia|]. replace (i - a) with (S (i - S a)) by lia. exact Hnth.
    + intros [Hle Hnth]. destruct (i - a) as [|k] eqn:Hk.
      * left. cbn in Hnth. injection Hnth as <-. f_equal. lia.
      * right. split; [lia|]. cbn in Hnth. now replace (i - S a) with k by lia.
Qed.

Lemma in_enumerate {A} (l : list A) (i : nat) (x : A) :
  In (i, x) (enumerate l) <-> nth_error l i = Some x.
Proof.
  unfold enumerate. rewrite in_enumerate_from, Nat.sub_0_r.
  split; [now intros [_ H] | intros H; split; [lia | exact H]].
Qed.

Lemma log_lines_layout (entry : _LogEntry.t) (response : Exchange.t) :
  Str.join (log_lines entry response) =
  (Datetime.str (_LogEntry.time entry) ++ nl
   ++ Exchange.request_method response ++ " " ++ Exchange.request_url response ++ nl
   ++ Str.of_Z (Exchange.status_code response) ++ " "
   ++ format_optional (Exchange.reason response) ++ nl
   ++ nl
   ++ Str.join (map (fun '(key, value) => (key ++ ": " ++ value ++ nl)%string)
                    (Exchange.headers response))
   ++ nl
   ++ Exchange.text response)%string.
Proof.
  unfold log_lines. rewrite !join_app, !join_cons.
  change (Str.join []) with EmptyString.
  now rewrite !append_assoc, ?append_nil_r.
Qed.

(** C3, amended. [save_logs] writes one file per exchange of every
    recorded entry, and each file holds, in this order: the capture
    timestamp line, the request method and URL line, the response status
    line, a blank line, one line per response header, a blank line, and
    the raw response body. *)
Theorem log_file_has_blank_line_before_headers :
  forall (dir : string) (w : World),
    let log := Session._log (session w) in
    save_logs dir w =
      (Ok tt, mkWorld (session w) (clock_reads w) (sent w) (files w ++ log_files dir log))
    /\ forall f : File,
         In f (log_files dir log) <->
         exists entry index response,
           In entry log
           /\ nth_error (Response.chain (_LogEntry.response entry)) index = Some response
           /\ f = mkFile dir (log_filename entry index)
                    (Datetime.str (_LogEntry.time entry) ++ nl
                     ++ Exchange.request_method response ++ " "
                     ++ Exchange.request_url response ++ nl
                     ++ Str.of_Z (Exchange.status_code response) ++ " "
                     ++ format_optional (Exchange.reason response) ++ nl
                     ++ nl
                     ++ Str.join (map (fun '(key, value) => (key ++ ": " ++ value ++ nl)%string)
                                      (Exchange.headers response))
                     ++ nl
                     ++ Exchange.text response)%string.
Proof.
  intros dir w log. split; [reflexivity|].
  intros f. unfold log_files. rewrite in_flat_map. split.
  - intros [entry [Hentry Hf]]. unfold entry_files in Hf.
    apply in_map_iff in Hf. destruct Hf as [[index response] [Hf Hin]].
    apply in_enumerate in Hin. exists entry, index, response.
    repeat split; trivial. now rewrite <- log_lines_layout.
  - intros [entry [index [response [Hentry [Hnth Hf]]]]].
    exists entry. split; [exact Hentry|]. unfold entry_files.
    apply in_map_iff. exists (index, response). split.
    + now rewrite log_lines_layout.
    + now apply in_enumerate.
Qed.

(** *** Navigation *)

(** The world after an exchange that ended with a response: the clock
    was read once, the request was sent, the browser shows the new page
    and the log has one more entry. *)
Lemma browse_step (w : World) (url_fragment : option string) (req : Request) :
  request_of (session w) url_fragment = Some req ->
  forall w0, session w0 = session w ->
    (match fragment_given url_fragment with
     | Some fragment =>
         s <- get_session ;; browser_open (Session.url s ++ "/" ++ fragment)
     | None => browser_submit_selected
     end) w0 = exchange req w0.
Proof.
  intros Hreq w0 Hs. unfold request_of in Hreq.
  destruct (fragment_given url_fragment) as [fragment|].
  - injection Hreq as <-. unfold bind, get_session, browser_open. now rewrite Hs.
  - unfold browser_submit_selected, bind, get_session. rewrite Hs.
    destruct (Browser.form (Session.browser (session w))); [|discriminate].
    now injection Hreq as <-.
Qed.

Lemma browse_responded (w : World) (url_fragment : option string) (purpose : string)
    (req : Request) (response : Response.t) (soup : option Bs4.Node) (jar : CookieJar) :
  request_of (session w) url_fragment = Some req ->
  transport (List.length (sent w)) req (Browser.cookiejar (Session.browser (session w)))
    = Responded response soup jar ->
  _browse url_fragment purpose w =
  (match headers_get "Date" (Exchange.headers (Response.final response)) with
   | Some value =>
       rbind (parsedate_to_datetime value) (fun dt => classify purpose dt soup)
   | None => classify purpose (Datetime.utc (now (clock_reads w))) soup
   end,
   mkWorld (Session.mk (Session.url (session w)) (Browser.mk jar soup None)
              (Session._log (session w)
               ++ [_LogEntry.mk (now (clock_reads w)) response purpose]))
           (S (clock_reads w)) (sent w ++ [req]) (files w)).
Proof.
  intros Hreq Hans.
  unfold _browse, bind at 1, datetime_now.
  unfold bind at 1, try_except. rewrite (browse_step w url_fragment req Hreq) by reflexivity.
  unfold exchange. cbn [session sent clock_reads files]. rewrite Hans.
  unfold bind, log_append, get_session, lift, ret. cbn [session sent clock_reads files].
  destruct (headers_get "Date" (Exchange.headers (Response.final response))) as [value|].
  - destruct (parsedate_to_datetime value) as [dt|e]; reflexivity.
  - reflexivity.
Qed.

Lemma browse_failed (w : World) (url_fragment : option string) (purpose : string)
    (req : Request) (jar : CookieJar) :
  request_of (session w) url_fragment = Some req ->
  transport (List.length (sent w)) req (Browser.cookiejar (Session.browser (session w)))
    = Failed jar ->
  _browse url_fragment purpose w =
  (Raise (BadResponseError purpose),
   mkWorld (Session.mk (Session.url (session w))
              (Browser.mk jar (Browser.page (Session.browser (session w)))
                          (Browser.form (Session.browser (session w))))
              (Session._log (session w)))
           (S (clock_reads w)) (sent w ++ [req]) (files w)).
Proof.
  intros Hreq Hans.
  unfold _browse, bind at 1, datetime_now.
  unfold bind at 1, try_except. rewrite (browse_step w url_fragment req Hreq) by reflexivity.
  unfold exchange. cbn [session sent clock_reads files]. now rewrite Hans.
Qed.

(** C9. A call of [_browse], navigation or form submission, whose HTTP
    exchange ends with a response adds exactly one entry to the log, made
    of the time read before the exchange, that response and the purpose,
    whatever the call then returns or raises: without a [Date] header the
    outcome is the one of the page classification, [BadResponseError]
    included, and [save_logs] afterwards writes the files of the new
    entry after those of the older ones.  An exchange that ends with a
    [RequestException] raises [BadResponseError] and leaves the log as it
    was. *)
Theorem browse_logs_every_response :
  forall (w : World) (url_fragment : option string) (purpose : string) (req : Request),
    request_of (session w) url_fragment = Some req ->
    let answer := transport (List.length (sent w)) req
                            (Browser.cookiejar (Session.browser (session w))) in
    let after := snd (_browse url_fragment purpose w) in
    (forall response soup jar,
        answer = Responded response soup jar ->
        let entry := _LogEntry.mk (now (clock_reads w)) response purpose in
        Session._log (session after) = Session._log (session w) ++ [entry]
        /\ (headers_get "Date" (Exchange.headers (Response.final response)) = None ->
            fst (_browse url_fragment purpose w)
            = classify purpose (Datetime.utc (now (clock_reads w))) soup)
        /\ (forall dir,
              files (snd (save_logs dir after)) =
              files after ++ log_files dir (Session._log (session w)) ++ entry_files dir entry))
    /\ (forall jar,
          answer = Failed jar ->
          fst (_browse url_fragment purpose w) = Raise (BadResponseError purpose)
          /\ Session._log (session after) = Session._log (session w)).
Proof.
  intros w url_fragment purpose req Hreq answer after. subst answer after. split.
  - intros response soup jar Hans entry.
    rewrite (browse_responded w url_fragment purpose req response soup jar Hreq Hans).
    cbn [fst snd session Session._log]. split; [reflexivity|]. split.
    + now intros ->.
    + intros dir. cbn. unfold log_files. now rewrite flat_map_app; cbn; rewrite app_nil_r.
  - intros jar Hans. rewrite (browse_failed w url_fragment purpose req jar Hreq Hans).
    split; reflexivity.
Qed.

(** *** Page classification *)

(** Without the page container the classification raises
    [BadResponseError] with the purpose of the operation; so it does for
    a body that is not HTML. *)
Lemma classify_without_page_container (purpose : string) (dt : Datetime.stamp)
    (soup : option Bs4.Node) :
  match soup with
  | Some soup => Bs4.find (Bs4.has_attr_value "data-role" "page") soup = None
  | None => True
  end ->
  classify purpose dt soup = Raise (BadResponseError purpose).
Proof.
  unfold classify. destruct soup as [soup|]; [|reflexivity].
  now intros ->.
Qed.

(** The conversion to UTC raises [OverflowError] or what the lookup of the
    local offset raised. *)
Lemma astimezone_utc_raises (dt : Datetime.stamp) (e : exn) :
  Datetime.astimezone_utc local_utcoffset dt = Raise e ->
  e = OverflowError \/ exists naive, local_utcoffset naive = Raise e.
Proof.
  assert (Hadd : forall t seconds, Datetime.add_seconds t seconds = Raise e ->
                                   e = OverflowError).
  { intros t seconds. unfold Datetime.add_seconds.
    match goal with |- (if ?c then _ else _) = _ -> _ => destruct c end;
      [discriminate | now intros [= <-]]. }
  unfold Datetime.astimezone_utc. destruct (Datetime.utcoffset dt) as [offset|].
  - destruct (offset =? 0)%Z; [discriminate|]. intros H. left. eapply Hadd, H.
  - destruct (local_utcoffset (Datetime.clock dt)) as [offset|e'] eqn:Hlocal; cbn.
    + intros H. left. eapply Hadd, H.
    + intros [= <-]. right. now exists (Datetime.clock dt).
Qed.

(** The only exceptions that leave the classification. *)
Lemma classify_raises (purpose : string) (dt : Datetime.stamp)
    (soup : option Bs4.Node) (e : exn) :
  classify purpose dt soup = Raise e ->
  e = BadResponseError purpose
  \/ e = KeyError
  \/ e = OverflowError
  \/ exists naive, local_utcoffset naive = Raise e.
Proof.
  unfold classify. destruct soup as [soup|]; [|intros [= <-]; now left].
  destruct (Bs4.find (Bs4.has_attr_value "data-role" "page") soup) as [page_div|];
    [|intros [= <-]; now left].
  unfold Bs4.getitem.
  destruct (Bs4.attrs_get "id" (Bs4.attrs_of page_div)); cbn [rbind];
    [|intros [= <-]; right; now left].
  destruct (Datetime.astimezone_utc local_utcoffset dt) as [time|e'] eqn:Hutc;
    cbn [rbind]; [discriminate|].
  intros H.
  assert (He : e = BadResponseError purpose \/ e = e').
  { destruct e'; injection H as <-; auto. }
  destruct He as [-> | ->]; [now left|].
  apply astimezone_utc_raises in Hutc. decompose [or] Hutc; auto 12.
Qed.

(** C1, where the code departs from it.  For a response with a page
    container, and no [Date] header, [_browse] raises [KeyError], not
    [BadResponseError], when the container has no [id] attribute, and
    returns a response whose content is [None], raising nothing, when the
    container has an [id] and no content container inside. *)
Theorem browse_lets_incomplete_pages_through :
  forall (w : World) (url_fragment : option string) (purpose : string) (req : Request)
         (response : Response.t) (soup : Bs4.Node) (jar : CookieJar) (page_div : Bs4.Node),
    request_of (session w) url_fragment = Some req ->
    transport (List.length (sent w)) req (Browser.cookiejar (Session.browser (session w)))
      = Responded response (Some soup) jar ->
    headers_get "Date" (Exchange.headers (Response.final response)) = None ->
    Bs4.find (Bs4.has_attr_value "data-role" "page") soup = Some page_div ->
    (Bs4.attrs_get "id" (Bs4.attrs_of page_div) = None ->
     fst (_browse url_fragment purpose w) = Raise KeyError)
    /\ (forall page_id,
          Bs4.attrs_get "id" (Bs4.attrs_of page_div) = Some page_id ->
          Bs4.find (Bs4.has_attr_value "data-role" "content") page_div = None ->
          fst (_browse url_fragment purpose w) =
          Ok (_Response.mk (now (clock_reads w)) page_id None)).
Proof.
  intros w url_fragment purpose req response soup jar page_div Hreq Hans Hdate Hpage.
  rewrite (browse_responded w url_fragment purpose req response (Some soup) jar Hreq Hans).
  rewrite Hdate. cbn [fst]. unfold classify, Bs4.getitem. rewrite Hpage. split.
  - now intros ->.
  - intros page_id -> Hcontent. cbn. now rewrite Hcontent.
Qed.

(** *** Logging in *)

(** With the error block in the page and a text in each of its items,
    the exception is [BadCredentialsError] for the one known message and
    [BadResponseError] otherwise. *)
Lemma log_in_failure_with_error_block (username : string) (response : _Response.t)
    (content error_div : Bs4.Node) (errors : list string) :
  _Response.content response = Some content ->
  Bs4.find (Bs4.has_class "validation-summary-errors") content = Some error_div ->
  rmap li_error (Bs4.find_all (Bs4.has_name "li") error_div) = Ok errors ->
  (errors = [bad_credentials_message] ->
   log_in_failure username response = BadCredentialsError username)
  /\ (errors <> [bad_credentials_message] ->
      log_in_failure username response = BadResponseError "home").
Proof.
  intros Hc Hdiv Herr. unfold log_in_failure. rewrite Hc, Hdiv, Herr. split.
  - intros ->. now rewrite String.eqb_refl.
  - intros Hne. destruct errors as [|e [|e' errors]]; trivial.
    destruct (String.eqb_spec e bad_credentials_message) as [->|]; [now elim Hne | trivial].
Qed.

(** [log_in] after the form was submitted. *)
Lemma log_in_after_submit (username password : string) (w w1 w2 : World)
    (response : _Response.t) :
  (_browse (Some "Account/Login") "login" ;;;
   browser_select_form ;;;
   form_set "UserName" username ;;;
   form_set "Password" password) w = (Ok tt, w1) ->
  _browse None "home" w1 = (Ok response, w2) ->
  log_in username password w =
  (if String.eqb (_Response.id response) "home-index" then Ok tt
   else Raise (log_in_failure username response), w2).
Proof.
  intros Hprefix Hsubmit. unfold log_in. unfold bind in Hprefix |- *.
  destruct (_browse (Some "Account/Login") "login" w) as [[r0|e0] wa]; [|discriminate].
  destruct (browser_select_form wa) as [[[]|e1] wb]; [|discriminate].
  destruct (form_set "UserName" username wb) as [[[]|e2] wc]; [|discriminate].
  destruct (form_set "Password" password wc) as [[[]|e3] wd]; [|discriminate].
  injection Hprefix as <-. rewrite Hsubmit.
  destruct (String.eqb (_Response.id response) "home-index"); reflexivity.
Qed.

(** C2, where the code departs from it.  When the page returned for the
    submitted form is not the home page and its content fragment holds no
    validation-errors block, [log_in] raises [AttributeError], not
    [BadResponseError]. *)
Theorem log_in_without_error_block :
  forall (username password : string) (w w1 w2 : World) (response : _Response.t)
         (content : Bs4.Node),
    (_browse (Some "Account/Login") "login" ;;;
     browser_select_form ;;;
     form_set "UserName" username ;;;
     form_set "Password" password) w = (Ok tt, w1) ->
    _browse None "home" w1 = (Ok response, w2) ->
    _Response.id response <> "home-index" ->
    _Response.content response = Some content ->
    Bs4.find (Bs4.has_class "validation-summary-errors") content = None ->
    log_in username password w = (Raise AttributeError, w2).
Proof.
  intros username password w w1 w2 response content Hprefix Hsubmit Hid Hc Hdiv.
  rewrite (log_in_after_submit username password w w1 w2 response Hprefix Hsubmit).
  apply String.eqb_neq in Hid. rewrite Hid.
  unfold log_in_failure. now rewrite Hc, Hdiv.
Qed.

(** ** Further properties *)

Lemma log_out_when_logged_out_lemma (w : World) :
  is_logged_in (session w) = false -> log_out w = (Ok tt, w).
Proof.
  intros H. unfold log_out, bind, get_session. now rewrite H.
Qed.

(** *** Navigation *)

Lemma browse_without_request (w : World) (url_fragment : option string) (purpose : string) :
  request_of (session w) url_fragment = None ->
  _browse url_fragment purpose w =
  (Raise AttributeError, mkWorld (session w) (S (clock_reads w)) (sent w) (files w)).
Proof.
  unfold request_of. intros Hreq.
  unfold _browse, bind at 1, datetime_now. unfold bind at 1, try_except.
  destruct (fragment_given url_fragment) as [fragment|]; [discriminate|].
  unfold browser_submit_selected, bind, get_session. cbn [session].
  destruct (Browser.form (Session.browser (session w))); [discriminate|].
  reflexivity.
Qed.

(** X1. A form submission ([url_fragment] is [None] or empty) with no
    form selected raises [AttributeError]; no request is sent and nothing
    is logged: only the clock was read. *)
Theorem browse_submission_needs_a_form :
  forall (w : World) (url_fragment : option string) (purpose : string),
    url_fragment = None \/ url_fragment = Some EmptyString ->
    Browser.form (Session.browser (session w)) = None ->
    _browse url_fragment purpose w =
    (Raise AttributeError, mkWorld (session w) (S (clock_reads w)) (sent w) (files w)).
Proof.
  intros w url_fragment purpose Hfrag Hform. apply browse_without_request.
  unfold request_of. rewrite Hform. now destruct Hfrag as [-> | ->].
Qed.

(** X2. The exceptions that leave [_browse] are [BadResponseError] with
    the purpose of the call, the [KeyError] of a page container without
    [id], the [OverflowError] of a [Date] header whose time, brought to
    UTC, is outside the years 1 to 9999, the [AttributeError] of a
    submission without a selected form, whatever [parsedate_to_datetime]
    raises on a [Date] header, and whatever the lookup of the local time
    zone raises for a [Date] header without zone. *)
Theorem browse_raises_only :
  forall (w : World) (url_fragment : option string) (purpose : string) (e : exn),
    fst (_browse url_fragment purpose w) = Raise e ->
    e = BadResponseError purpose
    \/ e = KeyError
    \/ e = OverflowError
    \/ (e = AttributeError /\ request_of (session w) url_fragment = None)
    \/ (exists value, parsedate_to_datetime value = Raise e)
    \/ (exists naive, local_utcoffset naive = Raise e).
Proof.
  intros w url_fragment purpose e.
  destruct (request_of (session w) url_fragment) as [req|] eqn:Hreq.
  - destruct (transport (List.length (sent w)) req
                (Browser.cookiejar (Session.browser (session w))))
      as [response soup jar|jar] eqn:Hans.
    + rewrite (browse_responded w url_fragment purpose req response soup jar Hreq Hans).
      cbn [fst].
      destruct (headers_get "Date" (Exchange.headers (Response.final response)))
        as [value|].
      * destruct (parsedate_to_datetime value) as [dt|e'] eqn:Hdate; cbn [rbind].
        -- intros H. apply classify_raises in H. decompose [or] H; auto 12.
        -- intros [= <-]. do 4 right. left. now exists value.
      * intros H. apply classify_raises in H. decompose [or] H; auto 12.
    + rewrite (browse_failed w url_fragment purpose req jar Hreq Hans).
      intros [= <-]. now left.
  - rewrite (browse_without_request w url_fragment purpose Hreq).
    intros [= <-]. do 3 right. left. now split.
Qed.

(** X3. A [Date] header that [parsedate_to_datetime] cannot read ends
    [_browse] with the parser's exception, whatever the page is; the
    response is in the log all the same. *)
Theorem browse_unreadable_date_header :
  forall (w : World) (url_fragment : option string) (purpose : string) (req : Request)
         (response : Response.t) (soup : option Bs4.Node) (jar : CookieJar)
         (value : string) (e : exn),
    request_of (session w) url_fragment = Some req ->
    transport (List.length (sent w)) req (Browser.cookiejar (Session.browser (session w)))
      = Responded response soup jar ->
    headers_get "Date" (Exchange.headers (Response.final response)) = Some value ->
    parsedate_to_datetime value = Raise e ->
    fst (_browse url_fragment purpose w) = Raise e
    /\ Session._log (session (snd (_browse url_fragment purpose w))) =
       Session._log (session w) ++ [_LogEntry.mk (now (clock_reads w)) response purpose].
Proof.
  intros w url_fragment purpose req response soup jar value e Hreq Hans Hhdr Hdate.
  rewrite (browse_responded w url_fragment purpose req response soup jar Hreq Hans).
  rewrite Hhdr, Hdate. split; reflexivity.
Qed.



Lemma roster_request (w : World) :
  request_of (session w) (Some "Roster/List?pageNo=1&row=1") =
  Some (Navigate (Session.url (session w) ++ "/Roster/List?pageNo=1&row=1")).
Proof. reflexivity. Qed.


(** *** The items of a snapshot *)

Lemma rmap_length {A B} (f : A -> result B) (xs : list A) (ys : list B) :
  rmap f xs = Ok ys -> List.length ys = List.length xs.
Proof.
  revert ys. induction xs as [|x xs IH]; intros ys H; cbn in H.
  - now injection H as <-.
  - destruct (f x) as [y|e]; cbn in H; [|discriminate].
    destruct (rmap f xs) as [ys'|e]; cbn in H; [|discriminate].
    injection H as <-. cbn. f_equal. now apply IH.
Qed.

Lemma roster_loop_details (lis : list Bs4.Node) :
  forall date title shifts final,
    roster_loop lis date title shifts = Ok final ->
    exists details,
      rmap row_detail (rows_of lis) = Ok details
      /\ map Item.detail final = map Item.detail shifts ++ details.
Proof.
  induction lis as [|li lis IH]; intros date title shifts final H.
  - cbn in H. injection H as <-. exists []. split; [reflexivity | now rewrite app_nil_r].
  - cbn [roster_loop] in H. unfold rows_of. cbn [filter].
    destruct (is_list_divider li); cbn [negb].
    + destruct (Bs4.string_of li) as [s|]; [|discriminate].
      destruct (Str.partition " - " s) as [[raw sep] title'].
      destruct (Datetime.strptime_date raw) as [d|e]; cbn in H; [|discriminate].
      eapply IH; eassumption.
    + destruct (row_detail li) as [d|e] eqn:Hd; cbn in H; [|discriminate].
      apply IH in H. destruct H as [details [Hdetails Hmap]].
      exists (d :: details). split.
      * cbn [rmap]. rewrite Hd. cbn [rbind]. fold (rows_of lis). now rewrite Hdetails.
      * rewrite Hmap, map_app, <- app_assoc. reflexivity.
Qed.

(** X5. A snapshot returned by [get_roster] holds one item per row of
    the list view of the page, in page order: the details of its items are
    the details of the rows, and its length is the number of rows, dividers
    not counted. *)
Theorem snapshot_items_are_the_rows :
  forall (w w' : World) (response : _Response.t) (content list_view : Bs4.Node)
         (snapshot : Snapshot.t),
    _browse (Some "Roster/List?pageNo=1&row=1") "roster" w = (Ok response, w') ->
    _Response.id response <> "account-login" ->
    _Response.content response = Some content ->
    Bs4.find (Bs4.has_attr_value "data-role" "listview") content = Some list_view ->
    fst (get_roster w) = Ok snapshot ->
    rmap row_detail (rows_of (Bs4.find_all_children (Bs4.has_name "li") list_view))
      = Ok (map Item.detail (Snapshot.items snapshot))
    /\ Snapshot.__len__ snapshot =
       List.length (rows_of (Bs4.find_all_children (Bs4.has_name "li") list_view)).
Proof.
  intros w w' response content list_view snapshot Hbrowse Hid Hc Hl H.
  rewrite (get_roster_after_browse w w' response Hbrowse Hid) in H. cbn [fst] in H.
  rewrite (roster_of_response_unfold response content list_view Hc Hl) in H.
  destruct (roster_loop _ None None []) as [final|e] eqn:Hloop; cbn in H; [|discriminate].
  injection H as <-. cbn [Snapshot.items].
  apply roster_loop_details in Hloop. destruct Hloop as [details [Hdetails Hmap]].
  cbn in Hmap. subst details. split; [exact Hdetails|].
  apply rmap_length in Hdetails. unfold Snapshot.__len__. cbn [Snapshot.items].
  now rewrite length_map in Hdetails.
Qed.

Lemma roster_loop_dated (lis : list Bs4.Node) :
  forall d t shifts final,
    roster_loop lis (Some d) (Some t) shifts = Ok final ->
    Forall dated shifts ->
    Forall dated final.
Proof.
  induction lis as [|li lis IH]; intros d t shifts final H Hshifts.
  - cbn in H. now injection H as <-.
  - cbn [roster_loop] in H. destruct (is_list_divider li).
    + destruct (Bs4.string_of li) as [s|]; [|discriminate].
      destruct (Str.partition " - " s) as [[raw sep] title'].
      destruct (Datetime.strptime_date raw) as [d'|e]; cbn in H; [|discriminate].
      eapply IH; eassumption.
    + destruct (row_detail li) as [detail|e]; cbn in H; [|discriminate].
      eapply IH; [eassumption|].
      apply Forall_app. split; [assumption|].
      constructor; [|constructor]. split; discriminate.
Qed.

(** X6. When the first item of the list view is a divider, every item of
    the snapshot has a date and a title. *)
Theorem items_below_a_divider_are_dated :
  forall (response : _Response.t) (content list_view divider : Bs4.Node)
         (rest : list Bs4.Node) (snapshot : Snapshot.t),
    _Response.content response = Some content ->
    Bs4.find (Bs4.has_attr_value "data-role" "listview") content = Some list_view ->
    Bs4.find_all_children (Bs4.has_name "li") list_view = divider :: rest ->
    is_list_divider divider = true ->
    roster_of_response response = Ok snapshot ->
    Forall dated (Snapshot.items snapshot).
Proof.
  intros response content list_view divider rest snapshot Hc Hl Hlis Hdiv H.
  rewrite (roster_of_response_unfold response content list_view Hc Hl), Hlis in H.
  cbn [roster_loop] in H. rewrite Hdiv in H.
  destruct (Bs4.string_of divider) as [s|]; [|discriminate].
  destruct (Str.partition " - " s) as [[raw sep] title'].
  destruct (Datetime.strptime_date raw) as [d|e]; cbn [rbind] in H; [|discriminate].
  destruct (roster_loop rest (Some d) (Some title') []) as [final|e] eqn:Hloop;
    cbn in H; [|discriminate].
  injection H as <-. cbn. eapply roster_loop_dated; [eassumption | constructor].
Qed.

Lemma strptime_date_raises (s : string) (e : exn) :
  Datetime.strptime_date s = Raise e -> e = ValueError.
Proof.
  unfold Datetime.strptime_date, Datetime.make_date.
  destruct (Datetime.m_format s) as [|[[[y m] d] rest] others]; [now intros [= <-]|].
  destruct (String.eqb rest EmptyString); [|now intros [= <-]].
  match goal with |- (if ?c then _ else _) = _ -> _ => destruct c end;
    [discriminate | now intros [= <-]].
Qed.

Lemma roster_loop_raises (lis : list Bs4.Node) :
  forall date title shifts e,
    roster_loop lis date title shifts = Raise e ->
    e = AttributeError \/ e = ValueError.
Proof.
  induction lis as [|li lis IH]; intros date title shifts e H.
  - discriminate.
  - cbn [roster_loop] in H. destruct (is_list_divider li).
    + destruct (Bs4.string_of li) as [s|]; [|injection H as <-; now left].
      destruct (Str.partition " - " s) as [[raw sep] title'].
      destruct (Datetime.strptime_date raw) as [d|e'] eqn:Hd; cbn in H.
      * eapply IH; eassumption.
      * injection H as <-. right. eapply strptime_date_raises; eassumption.
    + unfold row_detail in H.
      destruct (Bs4.find (Bs4.has_name "table") li); cbn in H.
      * eapply IH; eassumption.
      * injection H as <-. now left.
Qed.

Lemma roster_of_response_raises (response : _Response.t) (e : exn) :
  roster_of_response response = Raise e -> e = AttributeError \/ e = ValueError.
Proof.
  unfold roster_of_response.
  destruct (_Response.content response) as [content|]; [|intros [= <-]; now left].
  destruct (Bs4.find (Bs4.has_attr_value "data-role" "listview") content) as [lv|];
    [|intros [= <-]; now left].
  destruct (roster_loop _ None None []) as [shifts|e'] eqn:Hloop; cbn; [discriminate|].
  intros [= <-]. eapply roster_loop_raises; eassumption.
Qed.

Lemma roster_stage_raises (a : _Response.t) (w' : World) (e : exn) :
  fst ((if String.eqb (_Response.id a) "account-login"
        then raise NotLoggedInError else lift (roster_of_response a)) w') = Raise e ->
  e = NotLoggedInError \/ e = AttributeError \/ e = ValueError.
Proof.
  destruct (String.eqb (_Response.id a) "account-login"); cbn.
  - intros [= <-]. now left.
  - intros H. apply roster_of_response_raises in H. decompose [or] H; auto 12.
Qed.

(** X7. The exceptions that leave [get_roster] are [BadResponseError]
    for the purpose ["roster"], [NotLoggedInError], the [KeyError] of a
    page container without [id], the [AttributeError] of a page, list view,
    divider text or row table that is missing, the [ValueError] of a
    divider date that does not parse, the [OverflowError] of a [Date]
    header whose time, brought to UTC, is outside the years 1 to 9999,
    whatever [parsedate_to_datetime] raises on a [Date] header, and
    whatever the lookup of the local time zone raises for a [Date] header
    without zone. *)
Theorem get_roster_raises_only :
  forall (w : World) (e : exn),
    fst (get_roster w) = Raise e ->
    e = BadResponseError "roster"
    \/ e = NotLoggedInError
    \/ e = KeyError
    \/ e = AttributeError
    \/ e = ValueError
    \/ e = OverflowError
    \/ (exists value, parsedate_to_datetime value = Raise e)
    \/ (exists naive, local_utcoffset naive = Raise e).
Proof.
  intros w e. unfold get_roster, bind.
  destruct (transport (List.length (sent w))
              (Navigate (Session.url (session w) ++ "/Roster/List?pageNo=1&row=1"))
              (Browser.cookiejar (Session.browser (session w))))
    as [response soup jar|jar] eqn:Hans.
  - rewrite (browse_responded w _ "roster" _ response soup jar (roster_request w) Hans).
    destruct (headers_get "Date" (Exchange.headers (Response.final response)))
      as [value|].
    + destruct (parsedate_to_datetime value) as [dt|e'] eqn:Hdate; cbn [rbind].
      * destruct (classify "roster" dt soup) as [a|e0] eqn:Hc.
        -- intros H. apply roster_stage_raises in H. decompose [or] H; auto 12.
        -- intros [= <-]. apply classify_raises in Hc. decompose [or] Hc; auto 12.
      * intros [= <-]. do 6 right. left. now exists value.
    + destruct (classify "roster" (Datetime.utc (now (clock_reads w))) soup)
        as [a|e0] eqn:Hc.
      * intros H. apply roster_stage_raises in H. decompose [or] H; auto 12.
      * intros [= <-]. apply classify_raises in Hc. decompose [or] Hc; auto 12.
  - rewrite (browse_failed w _ "roster" _ jar (roster_request w) Hans).
    intros [= <-]. now left.
Qed.

Lemma partition_not_found (sep s : string) :
  (forall k, Str.startswith sep (Str.drop k s) = false) ->
  Str.partition sep s = (s, EmptyString, EmptyString).
Proof.
  unfold Str.partition. intros Hnone.
  enough (Str.partition_found sep s = None) as -> by reflexivity.
  induction s as [|c s IH].
  - rewrite partition_found_unfold.
    pose proof (Hnone 0) as Hhere. cbn [Str.drop] in Hhere. now rewrite Hhere.
  - rewrite partition_found_unfold.
    pose proof (Hnone 0) as Hhere. cbn [Str.drop] in Hhere. rewrite Hhere.
    rewrite IH; [reflexivity|]. intros k. exact (Hnone (S k)).
Qed.

(** X8. A divider whose text holds no [" - "] is read whole as the date
    portion, and the rows below it get the empty string as their title. *)
Theorem divider_without_separator_has_empty_title :
  forall (divider : Bs4.Node) (text : string) (rest : list Bs4.Node)
         (date : option Datetime.date) (title : option string) (shifts : list Item.t),
    is_list_divider divider = true ->
    Bs4.string_of divider = Some text ->
    (forall k, Str.startswith " - " (Str.drop k text) = false) ->
    roster_loop (divider :: rest) date title shifts =
    rbind (Datetime.strptime_date text)
          (fun date' => roster_loop rest (Some date') (Some EmptyString) shifts).
Proof.
  intros divider text rest date title shifts Hdiv Htext Hnone.
  rewrite (roster_loop_divider divider text rest date title shifts Hdiv Htext).
  now rewrite (partition_not_found " - " text Hnone).
Qed.

Lemma make_date_valid (y m d : Z) (x : Datetime.date) :
  Datetime.make_date y m d = Ok x -> valid_date x.
Proof.
  unfold Datetime.make_date.
  destruct ((1 <=? y) && (y <=? 9999) && (1 <=? m) && (m <=? 12) && (1 <=? d)
            && (d <=? Datetime.days_in_month y m))%Z eqn:Hok; [|discriminate].
  intros [= <-]. unfold valid_date. cbn.
  repeat (apply andb_true_iff in Hok; destruct Hok as [Hok ?]).
  repeat match goal with
         | H : (_ <=? _)%Z = true |- _ => apply Z.leb_le in H
         end.
  lia.
Qed.

Lemma strptime_date_valid (s : string) (d : Datetime.date) :
  Datetime.strptime_date s = Ok d -> valid_date d.
Proof.
  unfold Datetime.strptime_date.
  destruct (Datetime.m_format s) as [|[[[y m] d'] rest] others]; [discriminate|].
  destruct (String.eqb rest EmptyString); [|discriminate].
  apply make_date_valid.
Qed.

Lemma roster_loop_valid_dates (lis : list Bs4.Node) :
  forall date title shifts final,
    roster_loop lis date title shifts = Ok final ->
    (forall d, date = Some d -> valid_date d) ->
    Forall (fun item => forall d, Item.date item = Some d -> valid_date d) shifts ->
    Forall (fun item => forall d, Item.date item = Some d -> valid_date d) final.
Proof.
  induction lis as [|li lis IH]; intros date title shifts final H Hdate Hshifts.
  - cbn in H. now injection H as <-.
  - cbn [roster_loop] in H. destruct (is_list_divider li).
    + destruct (Bs4.string_of li) as [s|]; [|discriminate].
      destruct (Str.partition " - " s) as [[raw sep] title'].
      destruct (Datetime.strptime_date raw) as [d'|e] eqn:Hd; cbn in H; [|discriminate].
      eapply IH; [eassumption | | assumption].
      intros d [= <-]. eapply strptime_date_valid; eassumption.
    + destruct (row_detail li) as [detail|e]; cbn in H; [|discriminate].
      eapply IH; [eassumption | assumption |].
      apply Forall_app. split; [assumption|].
      constructor; [|constructor]. cbn. exact Hdate.
Qed.

(** X9. Every date in a snapshot is a calendar date: a year from 1 to
    9999, a month from 1 to 12 and a day that the month has in that year. *)
Theorem snapshot_dates_are_calendar_dates :
  forall (response : _Response.t) (snapshot : Snapshot.t),
    roster_of_response response = Ok snapshot ->
    Forall (fun item => forall d, Item.date item = Some d -> valid_date d)
           (Snapshot.items snapshot).
Proof.
  intros response snapshot. unfold roster_of_response.
  destruct (_Response.content response) as [content|]; [|discriminate].
  destruct (Bs4.find (Bs4.has_attr_value "data-role" "listview") content) as [lv|];
    [|discriminate].
  destruct (roster_loop _ None None []) as [final|e] eqn:Hloop; cbn; [|discriminate].
  intros [= <-]. cbn.
  eapply roster_loop_valid_dates; [eassumption | discriminate | constructor].
Qed.

(** X10. An item without a date cannot be printed: [str(item)] raises
    [AttributeError].  So it is for every item [get_roster] makes of the
    rows before the first divider. *)
Theorem undated_items_do_not_print :
  (forall item, Item.date item = None -> Item.__str__ item = Raise AttributeError)
  /\ forall response content list_view rows rest details snapshot,
       _Response.content response = Some content ->
       Bs4.find (Bs4.has_attr_value "data-role" "listview") content = Some list_view ->
       Bs4.find_all_children (Bs4.has_name "li") list_view = rows ++ rest ->
       Forall is_row rows ->
       rmap row_detail rows = Ok details ->
       roster_of_response response = Ok snapshot ->
       forall i, i < List.length rows ->
         rbind (Snapshot.__getitem__ snapshot (Z.of_nat i)) Item.__str__
         = Raise AttributeError.
Proof.
  split.
  - intros item H. unfold Item.__str__. now rewrite H.
  - intros response content list_view rows rest details snapshot Hc Hl Hlis Hrows Hdet Hs i Hi.
    rewrite (roster_of_response_unfold response content list_view Hc Hl), Hlis in Hs.
    rewrite (roster_loop_rows rows rest None None [] details Hrows Hdet) in Hs.
    destruct (roster_loop rest None None _) as [final|e] eqn:Hloop; cbn in Hs; [|discriminate].
    injection Hs as <-.
    apply roster_loop_extends in Hloop. destruct Hloop as [more ->].
    apply rmap_length in Hdet. cbn [app].
    destruct (nth_error details i) as [detail|] eqn:Hnth;
      [|apply nth_error_None in Hnth; lia].
    unfold Snapshot.__getitem__. cbn [Snapshot.items].
    rewrite (seq_getitem_nth _ i (Item.mk None None detail)).
    + reflexivity.
    + rewrite nth_error_app1 by (rewrite length_map; lia).
      now rewrite nth_error_map, Hnth.
Qed.

(** *** Logging in *)

(** X11. What [log_in] ends with once the form was submitted and a page
    came back: it returns when the page is the home page, whatever its
    content; for another page with an error block whose items all have a
    text, it raises [BadCredentialsError] with the username when the
    stripped texts are the one known message, and [BadResponseError] for
    ["home"] otherwise. *)
Theorem log_in_outcome :
  forall (username password : string) (w w1 w2 : World) (response : _Response.t),
    (_browse (Some "Account/Login") "login" ;;;
     browser_select_form ;;;
     form_set "UserName" username ;;;
     form_set "Password" password) w = (Ok tt, w1) ->
    _browse None "home" w1 = (Ok response, w2) ->
    (_Response.id response = "home-index" -> log_in username password w = (Ok tt, w2))
    /\ (_Response.id response <> "home-index" ->
        forall content error_div errors,
          _Response.content response = Some content ->
          Bs4.find (Bs4.has_class "validation-summary-errors") content = Some error_div ->
          rmap li_error (Bs4.find_all (Bs4.has_name "li") error_div) = Ok errors ->
          (errors = [bad_credentials_message] ->
           log_in username password w = (Raise (BadCredentialsError username), w2))
          /\ (errors <> [bad_credentials_message] ->
              log_in username password w = (Raise (BadResponseError "home"), w2))).
Proof.
  intros username password w w1 w2 response Hprefix Hsubmit.
  rewrite (log_in_after_submit username password w w1 w2 response Hprefix Hsubmit).
  split.
  - intros ->. reflexivity.
  - intros Hid content error_div errors Hc Hdiv Herr.
    apply String.eqb_neq in Hid. rewrite Hid.
    destruct (log_in_failure_with_error_block username response content error_div
                errors Hc Hdiv Herr) as [Hbad Hother].
    split; intros H; [rewrite (Hbad H) | rewrite (Hother H)]; reflexivity.
Qed.

Lemma login_request (w : World) :
  request_of (session w) (Some "Account/Login") =
  Some (Navigate (Session.url (session w) ++ "/Account/Login")).
Proof. reflexivity. Qed.

Lemma browse_sent (w : World) (url_fragment : option string) (purpose : string)
    (req : Request) :
  request_of (session w) url_fragment = Some req ->
  sent (snd (_browse url_fragment purpose w)) = sent w ++ [req].
Proof.
  intros Hreq.
  destruct (transport (List.length (sent w)) req
              (Browser.cookiejar (Session.browser (session w))))
    as [response soup jar|jar] eqn:Hans.
  - now rewrite (browse_responded w url_fragment purpose req response soup jar Hreq Hans).
  - now rewrite (browse_failed w url_fragment purpose req jar Hreq Hans).
Qed.

(** X12. [log_in] stops before anything is submitted when the login page
    cannot be used: an exception of the first navigation, a page without a
    form ([LinkNotFoundError]) or a form that refuses the [UserName] field
    ends the call with that exception, and the only request sent is the
    navigation to the login page. *)
Theorem log_in_stops_before_submitting :
  forall (username password : string) (w w1 : World),
    let login := Navigate (Session.url (session w) ++ "/Account/Login") in
    (forall e,
        _browse (Some "Account/Login") "login" w = (Raise e, w1) ->
        log_in username password w = (Raise e, w1)
        /\ sent w1 = sent w ++ [login])
    /\ (forall r page,
          _browse (Some "Account/Login") "login" w = (Ok r, w1) ->
          Browser.page (Session.browser (session w1)) = Some page ->
          (Bs4.find (Bs4.has_name "form") page = None ->
           log_in username password w = (Raise LinkNotFoundError, w1)
           /\ sent w1 = sent w ++ [login])
          /\ (forall form e,
                Bs4.find (Bs4.has_name "form") page = Some form ->
                form_setitem form "UserName" username = Raise e ->
                fst (log_in username password w) = Raise e
                /\ sent (snd (log_in username password w)) = sent w ++ [login])).
Proof.
  intros username password w w1 login.
  assert (Hsent : forall r, _browse (Some "Account/Login") "login" w = (r, w1) ->
                            sent w1 = sent w ++ [login]).
  { intros r H. pose proof (browse_sent w _ "login" _ (login_request w)) as Hs.
    now rewrite H in Hs. }
  split.
  - intros e H. split; [|now apply (Hsent (Raise e))].
    unfold log_in, bind. now rewrite H.
  - intros r page H Hpage. split.
    + intros Hform. split; [|now apply (Hsent (Ok r))].
      unfold log_in, bind. rewrite H.
      unfold browser_select_form, bind, get_session. now rewrite Hpage, Hform.
    + intros form e Hform Hset.
      unfold log_in, bind. rewrite H.
      unfold browser_select_form, bind, get_session. rewrite Hpage, Hform.
      unfold set_browser, form_set, bind, get_session, lift. cbn. rewrite Hset.
      cbn. split; [reflexivity | now apply (Hsent (Ok r))].
Qed.

(** *** What the methods add to the world *)

Lemma grown_by_trans (r1 r2 : list Request) (p1 p2 : list string) (w w1 w2 : World) :
  grown_by r1 p1 w w1 -> grown_by r2 p2 w1 w2 -> grown_by (r1 ++ r2) (p1 ++ p2) w w2.
Proof.
  intros (Hu1 & Hf1 & Hs1 & e1 & Hl1 & Hp1) (Hu2 & Hf2 & Hs2 & e2 & Hl2 & Hp2).
  unfold grown_by. repeat split; try congruence.
  - now rewrite Hs2, Hs1, app_assoc.
  - exists (e1 ++ e2). split.
    + now rewrite Hl2, Hl1, app_assoc.
    + now rewrite map_app, Hp1, Hp2.
Qed.

Lemma grown_by_same (w w' : World) :
  Session.url (session w') = Session.url (session w) ->
  Session._log (session w') = Session._log (session w) ->
  sent w' = sent w ->
  files w' = files w ->
  grown_by [] [] w w'.
Proof.
  intros Hu Hl Hs Hf. unfold grown_by. repeat split; trivial.
  - now rewrite app_nil_r.
  - exists []. now rewrite app_nil_r.
Qed.

Lemma browse_grows (w : World) (url_fragment : option string) (purpose : string) :
  match request_of (session w) url_fragment with
  | None => grown_by [] [] w (snd (_browse url_fragment purpose w))
  | Some req =>
      exists purposes,
        grown_by [req] purposes w (snd (_browse url_fragment purpose w))
        /\ (purposes = [] \/ purposes = [purpose])
        /\ (forall r, fst (_browse url_fragment purpose w) = Ok r -> purposes = [purpose])
  end.
Proof.
  destruct (request_of (session w) url_fragment) as [req|] eqn:Hreq.
  - destruct (transport (List.length (sent w)) req
                (Browser.cookiejar (Session.browser (session w))))
      as [response soup jar|jar] eqn:Hans.
    + rewrite (browse_responded w url_fragment purpose req response soup jar Hreq Hans).
      exists [purpose]. split; [|split; [now right | trivial]].
      unfold grown_by. cbn. repeat split; trivial.
      exists [_LogEntry.mk (now (clock_reads w)) response purpose]. now split.
    + rewrite (browse_failed w url_fragment purpose req jar Hreq Hans).
      exists []. split; [|split; [now left | discriminate]].
      unfold grown_by. cbn. repeat split; trivial.
      exists []. now rewrite app_nil_r.
  - rewrite (browse_without_request w url_fragment purpose Hreq).
    now apply grown_by_same.
Qed.

Lemma select_form_grows (w : World) :
  grown_by [] [] w (snd (browser_select_form w)).
Proof.
  unfold browser_select_form, bind, get_session.
  destruct (Browser.page (Session.browser (session w))) as [page|];
    [|now apply grown_by_same].
  destruct (Bs4.find (Bs4.has_name "form") page); now apply grown_by_same.
Qed.

Lemma form_set_grows (w : World) (name value : string) :
  grown_by [] [] w (snd (form_set name value w)).
Proof.
  unfold form_set, bind, get_session, lift.
  destruct (Browser.form (Session.browser (session w))) as [form|];
    [|now apply grown_by_same].
  destruct (form_setitem form name value); now apply grown_by_same.
Qed.

Lemma logoff_request (w : World) :
  request_of (session w) (Some "Account/LogOff") =
  Some (Navigate (Session.url (session w) ++ "/Account/LogOff")).
Proof. reflexivity. Qed.

(** X13. [get_roster] always makes one navigation, to the listing, and
    logs at most one entry, of purpose ["roster"]; [log_out] makes none
    when logged out and else one navigation, to the log-off page, logging
    at most one entry, of purpose ["logout"].  A navigation is one call of
    the browser: the redirects it follows are hops of that one exchange,
    kept in the history of its response.  Neither method changes the base
    URL, rewrites the log it found or writes a file; a call that returns
    has logged its entry. *)
Theorem get_roster_and_log_out_footprint :
  forall w : World,
    (exists purposes,
        grown_by [Navigate (Session.url (session w) ++ "/Roster/List?pageNo=1&row=1")]
                 purposes w (snd (get_roster w))
        /\ (purposes = [] \/ purposes = ["roster"])
        /\ (forall snapshot, fst (get_roster w) = Ok snapshot -> purposes = ["roster"]))
    /\ (if is_logged_in (session w)
        then exists purposes,
            grown_by [Navigate (Session.url (session w) ++ "/Account/LogOff")]
                     purposes w (snd (log_out w))
            /\ (purposes = [] \/ purposes = ["logout"])
            /\ (fst (log_out w) = Ok tt -> purposes = ["logout"])
        else grown_by [] [] w (snd (log_out w))).
Proof.
  intros w. split.
  - pose proof (browse_grows w (Some "Roster/List?pageNo=1&row=1") "roster") as H.
    rewrite roster_request in H. destruct H as (purposes & Hg & Hp & Hok).
    exists purposes. unfold get_roster, bind.
    destruct (_browse (Some "Roster/List?pageNo=1&row=1") "roster" w) as [[r|e] w1];
      cbn [fst snd] in *.
    + destruct (String.eqb (_Response.id r) "account-login"); cbn;
        (split; [exact Hg | split; [exact Hp | intros; eapply Hok; reflexivity]]).
    + split; [exact Hg | split; [exact Hp | discriminate]].
  - unfold log_out, bind, get_session. destruct (is_logged_in (session w)).
    + pose proof (browse_grows w (Some "Account/LogOff") "logout") as H.
      rewrite logoff_request in H. destruct H as (purposes & Hg & Hp & Hok).
      exists purposes.
      destruct (_browse (Some "Account/LogOff") "logout" w) as [[r|e] w1];
        cbn [fst snd] in *.
      * split; [exact Hg | split; [exact Hp | intros; eapply Hok; reflexivity]].
      * split; [exact Hg | split; [exact Hp | discriminate]].
    + now apply grown_by_same.
Qed.

(** X14. [log_in] sends the navigation to the login page and, after it,
    at most one request, the submission of a form; it logs at most two
    entries, of purpose ["login"] and then ["home"], and has logged both
    when it returns.  It does not change the base URL, rewrite the log it
    found or write a file. *)
Theorem log_in_footprint :
  forall (username password : string) (w : World),
    let login := Navigate (Session.url (session w) ++ "/Account/Login") in
    exists requests purposes,
      grown_by requests purposes w (snd (log_in username password w))
      /\ ((requests = [login] /\ (purposes = [] \/ purposes = ["login"]))
          \/ (exists form,
                 requests = [login; Submit form]
                 /\ (purposes = ["login"] \/ purposes = ["login"; "home"])))
      /\ (fst (log_in username password w) = Ok tt -> purposes = ["login"; "home"]).
Proof.
  intros username password w login. unfold log_in, bind.
  pose proof (browse_grows w (Some "Account/Login") "login") as H1.
  rewrite login_request in H1. destruct H1 as (ps1 & Hg1 & Hp1 & Hok1).
  fold login in Hg1.
  destruct (_browse (Some "Account/Login") "login" w) as [[r1|e1] w1]; cbn [fst snd] in *.
  2: { exists [login], ps1. split; [exact Hg1|].
       split; [left; split; [reflexivity | exact Hp1] | discriminate]. }
  specialize (Hok1 r1 eq_refl). subst ps1.
  pose proof (select_form_grows w1) as H2.
  destruct (browser_select_form w1) as [[[]|e2] w2]; cbn [snd] in H2;
    pose proof (grown_by_trans _ _ _ _ _ _ _ Hg1 H2) as G2; cbn [app] in G2.
  2: { exists [login], ["login"]. split; [exact G2|].
       split; [left; split; [reflexivity | now right] | discriminate]. }
  pose proof (form_set_grows w2 "UserName" username) as H3.
  destruct (form_set "UserName" username w2) as [[[]|e3] w3]; cbn [snd] in H3;
    pose proof (grown_by_trans _ _ _ _ _ _ _ G2 H3) as G3; cbn [app] in G3.
  2: { exists [login], ["login"]. split; [exact G3|].
       split; [left; split; [reflexivity | now right] | discriminate]. }
  pose proof (form_set_grows w3 "Password" password) as H4.
  destruct (form_set "Password" password w3) as [[[]|e4] w4]; cbn [snd] in H4;
    pose proof (grown_by_trans _ _ _ _ _ _ _ G3 H4) as G4; cbn [app] in G4.
  2: { exists [login], ["login"]. split; [exact G4|].
       split; [left; split; [reflexivity | now right] | discriminate]. }
  pose proof (browse_grows w4 None "home") as H5.
  destruct (request_of (session w4) None) as [req|] eqn:Hreq.
  - assert (Hform : exists form, req = Submit form).
    { unfold request_of in Hreq. cbn in Hreq.
      destruct (Browser.form (Session.browser (session w4))) as [form|]; [|discriminate].
      exists form. congruence. }
    destruct Hform as [form ->]. destruct H5 as (ps5 & Hg5 & Hp5 & Hok5).
    pose proof (grown_by_trans _ _ _ _ _ _ _ G4 Hg5) as G5. cbn [app] in G5.
    destruct (_browse None "home" w4) as [[r5|e5] w5]; cbn [fst snd] in *.
    + specialize (Hok5 r5 eq_refl). subst ps5.
      exists [login; Submit form], ["login"; "home"].
      destruct (String.eqb (_Response.id r5) "home-index"); cbn;
        (split; [exact G5|]);
        (split; [right; exists form; split; [reflexivity | now right] | trivial]).
    + exists [login; Submit form], ("login" :: ps5). split; [exact G5|].
      split; [|discriminate]. right. exists form. split; [reflexivity|].
      destruct Hp5 as [-> | ->]; [now left | now right].
  - pose proof (grown_by_trans _ _ _ _ _ _ _ G4 H5) as G5. cbn [app] in G5.
    rewrite (browse_without_request w4 None "home" Hreq) in G5 |- *. cbn [fst snd] in *.
    exists [login], ["login"]. split; [exact G5|].
    split; [left; split; [reflexivity | now right] | discriminate].
Qed.

(** *** Logging out *)

Lemma log_out_logged_in (w : World) :
  is_logged_in (session w) = true ->
  log_out w =
  (match fst (_browse (Some "Account/LogOff") "logout" w) with
   | Ok _ => Ok tt
   | Raise e => Raise e
   end, snd (_browse (Some "Account/LogOff") "logout" w)).
Proof.
  intros Hin. unfold log_out, bind, get_session. rewrite Hin.
  destruct (_browse (Some "Account/LogOff") "logout" w) as [[r|e] w1]; reflexivity.
Qed.

(** X15. For a logged-in session, [log_out] leaves the session with the
    cookie jar its log-off exchange ended with.  When the exchange is
    answered, the session is logged in afterwards exactly when that jar
    still holds the auth cookie, and when it does not, a second [log_out]
    does nothing.  When the exchange fails, [log_out] raises
    [BadResponseError] for ["logout"], and the session is logged in
    afterwards exactly when the jar the failure left still holds the auth
    cookie. *)
Theorem log_out_follows_the_server :
  forall w : World,
    is_logged_in (session w) = true ->
    let answer := transport (List.length (sent w))
                            (Navigate (Session.url (session w) ++ "/Account/LogOff"))
                            (Browser.cookiejar (Session.browser (session w))) in
    let after := snd (log_out w) in
    (forall response soup jar,
        answer = Responded response soup jar ->
        is_logged_in (session after) = cookie_in ".ASPXAUTH" jar
        /\ (cookie_in ".ASPXAUTH" jar = false -> log_out after = (Ok tt, after)))
    /\ (forall jar,
          answer = Failed jar ->
          fst (log_out w) = Raise (BadResponseError "logout")
          /\ is_logged_in (session after) = cookie_in ".ASPXAUTH" jar
          /\ (cookie_in ".ASPXAUTH" jar = false -> log_out after = (Ok tt, after))).
Proof.
  intros w Hin answer after. subst answer after.
  rewrite (log_out_logged_in w Hin). cbn [fst snd]. split.
  - intros response soup jar Hans.
    rewrite (browse_responded w _ "logout" _ response soup jar (logoff_request w) Hans).
    cbn [snd]. split; [reflexivity|].
    intros Hout. now apply log_out_when_logged_out_lemma.
  - intros jar Hans.
    rewrite (browse_failed w _ "logout" _ jar (logoff_request w) Hans).
    cbn [fst snd]. split; [reflexivity|]. split; [reflexivity|].
    intros Hout. now apply log_out_when_logged_out_lemma.
Qed.

(** X16. A [with] block left by a session that is not logged in adds
    nothing to what its body did: the result of the body, value or
    exception, is the result of the block, and the world is the one the
    body left. *)
Theorem with_block_is_transparent_when_logged_out :
  forall (A : Type) (body : M A) (w : World),
    is_logged_in (session (snd (body w))) = false ->
    with_session body w =
    (match fst (body w) with
     | Ok a => Ok (Some a)
     | Raise e => Raise e
     end, snd (body w)).
Proof.
  intros A body w Hout. unfold with_session.
  destruct (body w) as [[a|e] w1]; cbn [fst snd] in *;
    rewrite exit_runs_log_out, (log_out_when_logged_out_lemma w1 Hout); reflexivity.
Qed.

(** *** Log files *)

Lemma enumerate_fst {A} (l : list A) :
  forall a, map fst (combine (seq a (List.length l)) l) = seq a (List.length l).
Proof.
  induction l as [|x l IH]; intros a; cbn; [reflexivity|]. now rewrite IH.
Qed.

Lemma enumerate_snd {A} (l : list A) :
  forall a, map snd (combine (seq a (List.length l)) l) = l.
Proof.
  induction l as [|x l IH]; intros a; cbn; [reflexivity|]. now rewrite IH.
Qed.

Lemma chain_length (r : Response.t) :
  List.length (Response.chain r) = S (List.length (Response.history r)).
Proof. unfold Response.chain. rewrite length_app. cbn. lia. Qed.

Lemma entry_files_length (dir : string) (entry : _LogEntry.t) :
  List.length (entry_files dir entry) =
  S (List.length (Response.history (_LogEntry.response entry))).
Proof.
  unfold entry_files, enumerate.
  now rewrite length_map, length_combine, length_seq, Nat.min_id, chain_length.
Qed.

(** X17. [save_logs] adds, to the files written before, one file for the
    final response of every log entry and one for each redirect in its
    history, all in the directory it was given; the session, the requests
    sent and the clock are left alone. *)
Theorem save_logs_writes_one_file_per_exchange :
  forall (dir : string) (w : World),
    let after := snd (save_logs dir w) in
    List.length (files after) =
      List.length (files w)
      + list_sum (map (fun entry =>
                         S (List.length (Response.history (_LogEntry.response entry))))
                      (Session._log (session w)))
    /\ (exists written, files after = files w ++ written
                        /\ Forall (fun f => directory f = dir) written)
    /\ session after = session w
    /\ sent after = sent w
    /\ clock_reads after = clock_reads w.
Proof.
  intros dir w after. subst after. cbn. repeat split.
  - rewrite length_app. f_equal. unfold log_files.
    induction (Session._log (session w)) as [|entry log IH]; [reflexivity|].
    cbn [flat_map map list_sum]. now rewrite length_app, entry_files_length, IH.
  - exists (log_files dir (Session._log (session w))). split; [reflexivity|].
    apply Forall_forall. intros f Hf. unfold log_files in Hf.
    apply in_flat_map in Hf. destruct Hf as [entry [_ Hf]].
    unfold entry_files in Hf. apply in_map_iff in Hf.
    destruct Hf as [[index response] [<- _]]. reflexivity.
Qed.

(** X18. The files of one log entry are numbered from 0 in the order of
    the exchanges, the redirects first and the final response last, and
    each holds the text of its exchange. *)
Theorem entry_files_are_numbered_in_order :
  forall (dir : string) (entry : _LogEntry.t),
    let response := _LogEntry.response entry in
    map filename (entry_files dir entry) =
      map (log_filename entry) (seq 0 (S (List.length (Response.history response))))
    /\ map written (entry_files dir entry) =
       map (fun exchange => Str.join (log_lines entry exchange))
           (Response.history response ++ [Response.final response]).
Proof.
  intros dir entry response. subst response. unfold entry_files, enumerate.
  rewrite !map_map. split.
  - rewrite (map_ext _ (fun p => log_filename entry (fst p)))
      by (now intros [index exchange]).
    rewrite <- (map_map fst (log_filename entry)).
    now rewrite enumerate_fst, chain_length.
  - rewrite (map_ext _ (fun p => Str.join (log_lines entry (snd p))))
      by (now intros [index exchange]).
    rewrite <- (map_map snd (fun exchange => Str.join (log_lines entry exchange))).
    now rewrite enumerate_snd.
Qed.

(** *** Indexing a snapshot *)

(** X19. [snapshot[index]] raises [IndexError] for an index at or beyond
    the length and for one below minus the length; a negative index down
    to minus the length counts from the end; every other index returns an
    item. *)
Theorem snapshot_index_bounds :
  forall (time : Datetime.datetime) (its : list Item.t) (index : Z),
    let snapshot := Snapshot.mk time its in
    let n := Z.of_nat (Snapshot.__len__ snapshot) in
    ((index < - n \/ n <= index)%Z ->
     Snapshot.__getitem__ snapshot index = Raise IndexError)
    /\ ((- n <= index < 0)%Z ->
        Snapshot.__getitem__ snapshot index = Snapshot.__getitem__ snapshot (index + n))
    /\ ((- n <= index < n)%Z ->
        exists item, Snapshot.__getitem__ snapshot index = Ok item /\ In item its).
Proof.
  intros time its index snapshot n. subst snapshot n.
  unfold Snapshot.__getitem__, Snapshot.__len__, seq_getitem. cbn [Snapshot.items].
  set (n := Z.of_nat (List.length its)).
  split; [|split].
  - intros Hout. destruct (index <? 0)%Z eqn:Hneg.
    + apply Z.ltb_lt in Hneg.
      replace ((0 <=? index + n) && (index + n <? n))%Z with false; [reflexivity|].
      symmetry. apply andb_false_iff. left. apply Z.leb_gt. lia.
    + apply Z.ltb_ge in Hneg.
      replace ((0 <=? index) && (index <? n))%Z with false; [reflexivity|].
      symmetry. apply andb_false_iff. right. apply Z.ltb_ge. lia.
  - intros Hin.
    replace (index <? 0)%Z with true by (symmetry; apply Z.ltb_lt; lia).
    replace (index + n <? 0)%Z with false by (symmetry; apply Z.ltb_ge; lia).
    reflexivity.
  - intros Hin.
    set (i := if (index <? 0)%Z then (index + n)%Z else index).
    assert (Hi : (0 <= i < n)%Z).
    { subst i. destruct (index <? 0)%Z eqn:Hneg;
        [apply Z.ltb_lt in Hneg | apply Z.ltb_ge in Hneg]; lia. }
    replace ((0 <=? i) && (i <? n))%Z with true
      by (symmetry; apply andb_true_iff; split; [apply Z.leb_le | apply Z.ltb_lt]; lia).
    destruct (nth_error its (Z.to_nat i)) as [item|] eqn:Hnth.
    + exists item. split; [reflexivity|]. eapply nth_error_In; eassumption.
    + apply nth_error_None in Hnth. subst n. lia.
Qed.

(** *** Messages *)

Lemma escape_plain (c : ascii) :
  plain_char c = true ->
  Repr.escape Repr.single_quote c = String c EmptyString
  /\ Ascii.eqb c Repr.single_quote = false.
Proof.
  destruct c as [[|] [|] [|] [|] [|] [|] [|] [|]];
    intros H; try discriminate H; split; reflexivity.
Qed.

Lemma repr_plain (s : string) :
  plain s = true ->
  Repr.contains Repr.single_quote s = false
  /\ Repr.escape_all Repr.single_quote s = s.
Proof.
  induction s as [|c s IH]; cbn [plain Repr.contains Repr.escape_all];
    [now split|].
  intros H. apply andb_true_iff in H. destruct H as [Hc Hs].
  destruct (escape_plain c Hc) as [Hesc Hq]. destruct (IH Hs) as [Hcont Hall].
  rewrite Hq, Hcont, Hesc, Hall. now split.
Qed.

(** X21. For a purpose or a username made of printable ASCII characters
    without single quote or backslash, as the four purposes of the module
    are, the message of [BadResponseError] and of [BadCredentialsError]
    ends with that text as it is, between single quotes. *)
Theorem messages_quote_plain_text :
  forall s : string,
    plain s = true ->
    exn_message (BadResponseError s) =
      Some ("RosterOn returned an unexpected response for an operation expecting '"
            ++ s ++ "'")%string
    /\ exn_message (BadCredentialsError s) =
       Some ("RosterOn rejected the login credentials for username '" ++ s ++ "'")%string.
Proof.
  intros s Hs. destruct (repr_plain s Hs) as [Hcont Hall].
  assert (Hrepr : Repr.str s = String "'" (s ++ "'")).
  { unfold Repr.str, Repr.quote_for. rewrite Hcont. cbn [andb]. now rewrite Hall. }
  unfold exn_message. rewrite Hrepr. split; reflexivity.
Qed.

End Methods.

(** ** The properties on the sample pages *)

Lemma snapshot_is_the_item_sequence_witness :
  let a := Item.mk None None [] in
  let b := Item.mk None None [Some "XYZ"] in
  let c := Item.mk None None [None] in
  exists item,
    nth_error [a; b; c] 1 = Some item
    /\ Snapshot.__getitem__ (Snapshot.mk Fixture.server_time [a; b; c]) 1 = Ok item
    /\ nth_error (Snapshot.__iter__ (Snapshot.mk Fixture.server_time [a; b; c])) 1 = Some item.
Proof.
  intros a b c.
  apply (proj1 (proj2 (snapshot_is_the_item_sequence Fixture.server_time [a; b; c])) 1).
  cbn. lia.
Defined.

Lemma log_out_when_logged_out_witness :
  log_out Fixture.parsedate Fixture.local_utcoffset Fixture.cookie_in Fixture.client_time
          (Fixture.server Fixture.home_html Fixture.roster_html) Fixture.fresh
  = (Ok tt, Fixture.fresh).
Proof. apply log_out_when_logged_out. reflexivity. Defined.

Lemma get_roster_on_login_page_witness :
  fst (get_roster Fixture.parsedate Fixture.local_utcoffset Fixture.client_time
                  (Fixture.server Fixture.home_html Fixture.login_html) Fixture.fresh)
  = Raise NotLoggedInError.
Proof.
  erewrite get_roster_on_login_page; [reflexivity | reflexivity | reflexivity].
Defined.

Lemma with_block_logs_out_and_suppresses_nothing_witness :
  (exists b w',
      __exit__ Fixture.parsedate Fixture.local_utcoffset Fixture.cookie_in Fixture.client_time
               (Fixture.server Fixture.home_html Fixture.roster_html)
               None Fixture.logged_in = (Ok b, w')
      /\ b = false)
  /\ fst (with_session Fixture.parsedate Fixture.local_utcoffset Fixture.cookie_in Fixture.client_time
            (Fixture.server Fixture.home_html Fixture.roster_html)
            (ret 7) Fixture.logged_in) = Ok (Some 7)
  /\ fst (with_session Fixture.parsedate Fixture.local_utcoffset Fixture.cookie_in Fixture.client_time
            (Fixture.server Fixture.home_html Fixture.roster_html)
            (raise (A := nat) NotLoggedInError) Fixture.logged_in)
     = Raise NotLoggedInError
  /\ sent (snd (with_session Fixture.parsedate Fixture.local_utcoffset Fixture.cookie_in Fixture.client_time
                  (Fixture.server Fixture.home_html Fixture.roster_html)
                  (raise (A := nat) NotLoggedInError) Fixture.logged_in))
     = [Navigate (Fixture.TEST_URL ++ "/Account/LogOff")].
Proof.
  destruct (with_block_logs_out_and_suppresses_nothing Fixture.parsedate Fixture.local_utcoffset Fixture.cookie_in
              Fixture.client_time (Fixture.server Fixture.home_html Fixture.roster_html))
    as (_ & Hfalse & Hreturned & Hraised).
  split; [|split; [|split]].
  - exists false.
    exists (snd (__exit__ Fixture.parsedate Fixture.local_utcoffset Fixture.cookie_in Fixture.client_time
                   (Fixture.server Fixture.home_html Fixture.roster_html)
                   None Fixture.logged_in)).
    split; [reflexivity|].
    apply (Hfalse None Fixture.logged_in false
             (snd (__exit__ Fixture.parsedate Fixture.local_utcoffset Fixture.cookie_in Fixture.client_time
                     (Fixture.server Fixture.home_html Fixture.roster_html)
                     None Fixture.logged_in))).
    reflexivity.
  - apply (Hreturned nat (ret 7) Fixture.logged_in 7 Fixture.logged_in eq_refl).
    reflexivity.
  - apply (Hraised nat (raise NotLoggedInError) Fixture.logged_in NotLoggedInError
             Fixture.logged_in eq_refl).
    reflexivity.
  - rewrite (proj1 (Hraised nat (raise NotLoggedInError) Fixture.logged_in
                      NotLoggedInError Fixture.logged_in eq_refl)).
    reflexivity.
Defined.


(** The sample server's listing, as [_browse] classifies it. *)
Lemma sample_listing_is_classified (lis : list Bs4.Node) :
  _browse Fixture.parsedate Fixture.local_utcoffset Fixture.client_time
          (Fixture.server Fixture.home_html (Fixture.roster_page lis))
          (Some "Roster/List?pageNo=1&row=1") "roster" Fixture.fresh
  = (Ok (Fixture.roster_response lis),
     snd (_browse Fixture.parsedate Fixture.local_utcoffset Fixture.client_time
            (Fixture.server Fixture.home_html (Fixture.roster_page lis))
            (Some "Roster/List?pageNo=1&row=1") "roster" Fixture.fresh)).
Proof. reflexivity. Defined.

Lemma sample_listing_is_no_login_page (lis : list Bs4.Node) :
  _Response.id (Fixture.roster_response lis) <> "account-login".
Proof. discriminate. Defined.


Lemma rows_before_first_divider_are_undated_witness :
  fst (get_roster Fixture.parsedate Fixture.local_utcoffset Fixture.client_time
         (Fixture.server Fixture.home_html Fixture.roster_undated_html) Fixture.fresh)
  = Ok (Snapshot.mk (Fixture.client_time 0)
          [Item.mk None None Fixture.shift_detail;
           Item.mk (Some (Datetime.mkdate 2019 6 11)) (Some "ABCDE - Melbourne Office")
                   Fixture.shift_detail])
  /\ fst (get_roster Fixture.parsedate Fixture.local_utcoffset Fixture.client_time
            (Fixture.server Fixture.home_html (Fixture.roster_page [Fixture.shift_row]))
            Fixture.fresh)
     = Ok (Snapshot.mk (Fixture.client_time 0) [Item.mk None None Fixture.shift_detail])
  /\ exists more,
       [Item.mk None None Fixture.shift_detail;
        Item.mk (Some (Datetime.mkdate 2019 6 11)) (Some "ABCDE - Melbourne Office")
                Fixture.shift_detail]
       = map (Item.mk None None) [Fixture.shift_detail] ++ more.
Proof.
  pose proof (rows_before_first_divider_are_undated Fixture.parsedate
                Fixture.local_utcoffset Fixture.client_time
                (Fixture.server Fixture.home_html Fixture.roster_undated_html)
                Fixture.fresh _
                (Fixture.roster_response
                   [Fixture.shift_row;
                    Fixture.divider "Tue 11/06/2019 - ABCDE - Melbourne Office";
                    Fixture.shift_row])
                (Fixture.content_div
                   [Fixture.list_view
                      [Fixture.shift_row;
                       Fixture.divider "Tue 11/06/2019 - ABCDE - Melbourne Office";
                       Fixture.shift_row]])
                (Fixture.list_view
                   [Fixture.shift_row;
                    Fixture.divider "Tue 11/06/2019 - ABCDE - Melbourne Office";
                    Fixture.shift_row])
                [Fixture.shift_row]
                [Fixture.divider "Tue 11/06/2019 - ABCDE - Melbourne Office";
                 Fixture.shift_row]
                [Fixture.shift_detail]
                (sample_listing_is_classified _)
                (sample_listing_is_no_login_page _)
                eq_refl eq_refl eq_refl
                (Forall_cons Fixture.shift_row (eq_refl : is_row Fixture.shift_row)
                   (Forall_nil is_row))
                eq_refl) as (Hgoes & _ & Hstarts).
  pose proof (rows_before_first_divider_are_undated Fixture.parsedate
                Fixture.local_utcoffset Fixture.client_time
                (Fixture.server Fixture.home_html (Fixture.roster_page [Fixture.shift_row]))
                Fixture.fresh _
                (Fixture.roster_response [Fixture.shift_row])
                (Fixture.content_div [Fixture.list_view [Fixture.shift_row]])
                (Fixture.list_view [Fixture.shift_row])
                [Fixture.shift_row] [] [Fixture.shift_detail]
                (sample_listing_is_classified _)
                (sample_listing_is_no_login_page _)
                eq_refl eq_refl eq_refl
                (Forall_cons Fixture.shift_row (eq_refl : is_row Fixture.shift_row)
                   (Forall_nil is_row))
                eq_refl) as (_ & Honly & _).
  split; [|split].
  - rewrite Hgoes. reflexivity.
  - rewrite (Honly eq_refl). reflexivity.
  - apply (Hstarts (Snapshot.mk (Fixture.client_time 0)
                      [Item.mk None None Fixture.shift_detail;
                       Item.mk (Some (Datetime.mkdate 2019 6 11))
                               (Some "ABCDE - Melbourne Office") Fixture.shift_detail])).
    reflexivity.
Defined.

Lemma log_file_has_blank_line_before_headers_witness :
  In (mkFile "logs" "20190610T042837.160169Z-login-0.txt"
        ("2019-06-10 04:28:37.160169+00:00" ++ nl
         ++ "GET http://example.com/RosterOnProd/Mobile/Account/Login" ++ nl
         ++ "200 None" ++ nl
         ++ nl
         ++ "Date: Mon, 10 Jun 2019 04:28:38 GMT" ++ nl
         ++ "Content-Type: text/html; charset=utf-8" ++ nl
         ++ nl
         ++ "<!DOCTYPE html>"))
     (log_files "logs" [Fixture.login_entry]).
Proof.
  apply (proj2 (log_file_has_blank_line_before_headers "logs"
                  (mkWorld (Session.mk Fixture.TEST_URL (Browser.mk [] None None)
                                       [Fixture.login_entry]) 1 [] []))).
  exists Fixture.login_entry, 0,
    (Response.final (_LogEntry.response Fixture.login_entry)).
  split; [now left|]. split; reflexivity.
Defined.

(** C3, as the specification words it, fails on the entry of the login
    page: the file written for it is not the text without the blank line
    between the status line and the headers. *)
Lemma log_file_is_not_without_blank_line :
  map written (log_files "logs" [Fixture.login_entry]) <>
  [layout_without_blank_line Fixture.login_entry
     (Response.final (_LogEntry.response Fixture.login_entry))].
Proof. vm_compute. discriminate. Qed.

Lemma browse_logs_every_response_witness :
  (let after :=
     snd (_browse Fixture.parsedate Fixture.local_utcoffset Fixture.client_time
            (Fixture.server Fixture.home_html Fixture.unexpected_html)
            (Some "Roster/List?pageNo=1&row=1") "roster" Fixture.fresh) in
   List.length (Session._log (session after)) = 1
   /\ fst (_browse Fixture.parsedate Fixture.local_utcoffset Fixture.client_time
             (Fixture.server Fixture.home_html Fixture.unexpected_html)
             (Some "Roster/List?pageNo=1&row=1") "roster" Fixture.fresh)
      = Raise (BadResponseError "roster")
   /\ List.length (files (snd (save_logs "logs" after))) = 1)
  /\ (let after :=
        snd (_browse Fixture.parsedate Fixture.local_utcoffset Fixture.client_time Fixture.offline
               (Some "Roster/List?pageNo=1&row=1") "roster" Fixture.fresh) in
      fst (_browse Fixture.parsedate Fixture.local_utcoffset Fixture.client_time Fixture.offline
             (Some "Roster/List?pageNo=1&row=1") "roster" Fixture.fresh)
      = Raise (BadResponseError "roster")
      /\ Session._log (session after) = []).
Proof.
  split.
  - destruct (proj1 (browse_logs_every_response Fixture.parsedate Fixture.local_utcoffset
        Fixture.client_time
                       (Fixture.server Fixture.home_html Fixture.unexpected_html)
                       Fixture.fresh (Some "Roster/List?pageNo=1&row=1") "roster"
                       (Navigate (Fixture.TEST_URL ++ "/Roster/List?pageNo=1&row=1"))
                       eq_refl)
                    _ _ _ eq_refl) as (Hlog & Hresult & Hfiles).
    cbv zeta. split; [|split].
    + rewrite Hlog. reflexivity.
    + rewrite (Hresult eq_refl). reflexivity.
    + rewrite Hfiles. reflexivity.
  - apply (proj2 (browse_logs_every_response Fixture.parsedate Fixture.local_utcoffset
        Fixture.client_time
                    Fixture.offline
                    Fixture.fresh (Some "Roster/List?pageNo=1&row=1") "roster"
                    (Navigate (Fixture.TEST_URL ++ "/Roster/List?pageNo=1&row=1"))
                    eq_refl) []).
    reflexivity.
Defined.

Lemma browse_lets_incomplete_pages_through_witness :
  fst (_browse Fixture.parsedate Fixture.local_utcoffset Fixture.client_time
         (Fixture.server Fixture.home_html Fixture.page_without_id_html)
         (Some "Roster/List?pageNo=1&row=1") "roster" Fixture.fresh)
  = Raise KeyError
  /\ fst (_browse Fixture.parsedate Fixture.local_utcoffset Fixture.client_time
            (Fixture.server Fixture.home_html Fixture.page_without_content_html)
            (Some "Roster/List?pageNo=1&row=1") "roster" Fixture.fresh)
     = Ok (_Response.mk (Fixture.client_time 0) "account-login" None).
Proof.
  split.
  - apply (proj1 (browse_lets_incomplete_pages_through Fixture.parsedate Fixture.local_utcoffset
                    Fixture.client_time
                    (Fixture.server Fixture.home_html Fixture.page_without_id_html)
                    Fixture.fresh (Some "Roster/List?pageNo=1&row=1") "roster"
                    (Navigate (Fixture.TEST_URL ++ "/Roster/List?pageNo=1&row=1"))
                    _ _ _ _ eq_refl eq_refl eq_refl eq_refl)).
    reflexivity.
  - apply (proj2 (browse_lets_incomplete_pages_through Fixture.parsedate Fixture.local_utcoffset
                    Fixture.client_time
                    (Fixture.server Fixture.home_html Fixture.page_without_content_html)
                    Fixture.fresh (Some "Roster/List?pageNo=1&row=1") "roster"
                    (Navigate (Fixture.TEST_URL ++ "/Roster/List?pageNo=1&row=1"))
                    _ _ _ _ eq_refl eq_refl eq_refl eq_refl)); reflexivity.
Defined.

Lemma log_in_without_error_block_witness :
  fst (log_in Fixture.parsedate Fixture.local_utcoffset Fixture.setitem Fixture.client_time
         (Fixture.server Fixture.login_html Fixture.roster_html)
         "joe.bloggs" "abc123" Fixture.fresh)
  = Raise AttributeError.
Proof.
  pose (w1 := snd ((_browse Fixture.parsedate Fixture.local_utcoffset Fixture.client_time
                      (Fixture.server Fixture.login_html Fixture.roster_html)
                      (Some "Account/Login") "login" ;;;
                    browser_select_form ;;;
                    form_set Fixture.setitem "UserName" "joe.bloggs" ;;;
                    form_set Fixture.setitem "Password" "abc123") Fixture.fresh)).
  pose (w2 := snd (_browse Fixture.parsedate Fixture.local_utcoffset Fixture.client_time
                     (Fixture.server Fixture.login_html Fixture.roster_html)
                     None "home" w1)).
  rewrite (log_in_without_error_block Fixture.parsedate Fixture.local_utcoffset Fixture.setitem
             Fixture.client_time
             (Fixture.server Fixture.login_html Fixture.roster_html)
             "joe.bloggs" "abc123" Fixture.fresh w1 w2
             (_Response.mk (Fixture.client_time 1) "account-login"
                (Some (Fixture.content_div [Fixture.login_form])))
             (Fixture.content_div [Fixture.login_form])).
  - reflexivity.
  - vm_compute. reflexivity.
  - vm_compute. reflexivity.
  - discriminate.
  - reflexivity.
  - reflexivity.
Defined.

(** ** The tests of the repository on the sample network *)

Example test_log_in_bad_creds :
  fst (log_in Fixture.parsedate Fixture.local_utcoffset Fixture.setitem Fixture.client_time
         (Fixture.server Fixture.login_badcreds_html Fixture.roster_html)
         "joe.bloggs" "abc123" Fixture.fresh)
  = Raise (BadCredentialsError "joe.bloggs").
Proof. reflexivity. Qed.

Example test_log_in_strange_error :
  fst (log_in Fixture.parsedate Fixture.local_utcoffset Fixture.setitem Fixture.client_time
         (Fixture.server Fixture.login_baderror_html Fixture.roster_html)
         "joe.bloggs" "abc123" Fixture.fresh)
  = Raise (BadResponseError "home").
Proof. reflexivity. Qed.

Example test_log_in_server_error_after_login :
  fst (log_in Fixture.parsedate Fixture.local_utcoffset Fixture.setitem Fixture.client_time
         (Fixture.server Fixture.unexpected_html Fixture.roster_html)
         "joe.bloggs" "abc123" Fixture.fresh)
  = Raise (BadResponseError "home").
Proof. reflexivity. Qed.

Example test_get_roster :
  fst (get_roster Fixture.parsedate Fixture.local_utcoffset Fixture.client_time
         (Fixture.server Fixture.home_html Fixture.roster_html) Fixture.fresh)
  = Ok (Snapshot.mk (Fixture.client_time 0)
          [Item.mk (Some (Datetime.mkdate 2019 6 11)) (Some "ABCDE - Melbourne Office")
                   [Some "10:30 - 18:06"; None; Some "XYZ"; Some "Assistant"]]).
Proof. reflexivity. Qed.

Example test_connection_error :
  fst (get_roster Fixture.parsedate Fixture.local_utcoffset
        Fixture.client_time Fixture.offline Fixture.fresh)
  = Raise (BadResponseError "roster").
Proof. reflexivity. Qed.

Example test_auto_logout :
  let after :=
    snd (with_session Fixture.parsedate Fixture.local_utcoffset Fixture.cookie_in Fixture.client_time
           (Fixture.server Fixture.home_html Fixture.roster_html)
           (ret tt) Fixture.logged_in) in
  is_logged_in Fixture.cookie_in (session after) = false
  /\ sent after = [Navigate (Fixture.TEST_URL ++ "/Account/LogOff")].
Proof. split; reflexivity. Qed.

(** A [Date] header the parser reads and whose time is past the last
    representable second once brought to UTC: the response is logged and
    [OverflowError] leaves [get_roster]. *)
Example test_date_header_out_of_range :
  let answer :=
    get_roster Fixture.parsedate Fixture.local_utcoffset Fixture.client_time
      (Fixture.static_server [("Date", "Fri, 31 Dec 9999 23:59:59 -0100")]
         Fixture.roster_html)
      Fixture.fresh in
  fst answer = Raise OverflowError
  /\ List.length (Session._log (session (snd answer))) = 1.
Proof. split; reflexivity. Qed.

(** A [Date] header ten hours east of UTC: the snapshot carries the UTC
    time. *)
Example test_date_header_with_offset :
  fst (get_roster Fixture.parsedate Fixture.local_utcoffset Fixture.client_time
         (Fixture.static_server [("Date", "Mon, 10 Jun 2019 14:28:38 +1000")]
            Fixture.roster_html)
         Fixture.fresh)
  = Ok (Snapshot.mk Fixture.server_time
          [Item.mk (Some (Datetime.mkdate 2019 6 11)) (Some "ABCDE - Melbourne Office")
                   Fixture.shift_detail]).
Proof. reflexivity. Qed.

(** ** The further properties on the sample pages *)

Lemma browse_submission_needs_a_form_witness :
  _browse Fixture.parsedate Fixture.local_utcoffset Fixture.client_time
          (Fixture.server Fixture.home_html Fixture.roster_html)
          None "home" Fixture.fresh
  = (Raise AttributeError, mkWorld Fixture.fresh_session 1 [] []).
Proof.
  apply (browse_submission_needs_a_form Fixture.parsedate Fixture.local_utcoffset
        Fixture.client_time
           (Fixture.server Fixture.home_html Fixture.roster_html)
           Fixture.fresh None "home").
  - now left.
  - reflexivity.
Defined.

Lemma browse_raises_only_witness :
  OverflowError = BadResponseError "roster"
  \/ OverflowError = KeyError
  \/ OverflowError = OverflowError
  \/ (OverflowError = AttributeError
      /\ request_of (session Fixture.fresh) (Some "Roster/List?pageNo=1&row=1") = None)
  \/ (exists value, Fixture.parsedate value = Raise OverflowError)
  \/ (exists naive, Fixture.local_utcoffset naive = Raise OverflowError).
Proof.
  apply (browse_raises_only Fixture.parsedate Fixture.local_utcoffset Fixture.client_time
           (Fixture.static_server [("Date", "Fri, 31 Dec 9999 23:59:59 -0100")]
              Fixture.roster_html)
           Fixture.fresh (Some "Roster/List?pageNo=1&row=1") "roster" OverflowError).
  reflexivity.
Defined.

Lemma browse_unreadable_date_header_witness :
  fst (_browse Fixture.parsedate Fixture.local_utcoffset Fixture.client_time
         (Fixture.static_server [("date", "yesterday")] Fixture.roster_html)
         (Some "Roster/List?pageNo=1&row=1") "roster" Fixture.fresh)
  = Raise ValueError
  /\ Session._log
       (session
          (snd (_browse Fixture.parsedate Fixture.local_utcoffset Fixture.client_time
                  (Fixture.static_server [("date", "yesterday")] Fixture.roster_html)
                  (Some "Roster/List?pageNo=1&row=1") "roster" Fixture.fresh)))
     = [] ++ [_LogEntry.mk (Fixture.client_time 0)
                (Response.mk
                   (Fixture.ok_exchange "GET" Fixture.TEST_URL [("date", "yesterday")]
                      "<html>") [])
                "roster"].
Proof.
  apply (browse_unreadable_date_header Fixture.parsedate Fixture.local_utcoffset Fixture.client_time
           (Fixture.static_server [("date", "yesterday")] Fixture.roster_html)
           Fixture.fresh (Some "Roster/List?pageNo=1&row=1") "roster"
           (Navigate (Fixture.TEST_URL ++ "/Roster/List?pageNo=1&row=1"))
           (Response.mk
              (Fixture.ok_exchange "GET" Fixture.TEST_URL [("date", "yesterday")] "<html>")
              [])
           (Some Fixture.roster_html) [] "yesterday" ValueError);
    reflexivity.
Defined.


Lemma snapshot_items_are_the_rows_witness :
  rmap row_detail
       (rows_of [Fixture.shift_row;
                 Fixture.divider "Tue 11/06/2019 - ABCDE - Melbourne Office";
                 Fixture.shift_row])
  = Ok [Fixture.shift_detail; Fixture.shift_detail]
  /\ 2 = List.length
           (rows_of [Fixture.shift_row;
                     Fixture.divider "Tue 11/06/2019 - ABCDE - Melbourne Office";
                     Fixture.shift_row]).
Proof.
  exact (snapshot_items_are_the_rows Fixture.parsedate Fixture.local_utcoffset
           Fixture.client_time
           (Fixture.server Fixture.home_html Fixture.roster_undated_html)
           Fixture.fresh _
           (Fixture.roster_response
              [Fixture.shift_row;
               Fixture.divider "Tue 11/06/2019 - ABCDE - Melbourne Office";
               Fixture.shift_row])
           (Fixture.content_div
              [Fixture.list_view
                 [Fixture.shift_row;
                  Fixture.divider "Tue 11/06/2019 - ABCDE - Melbourne Office";
                  Fixture.shift_row]])
           (Fixture.list_view
              [Fixture.shift_row;
               Fixture.divider "Tue 11/06/2019 - ABCDE - Melbourne Office";
               Fixture.shift_row])
           (Snapshot.mk (Fixture.client_time 0)
              [Item.mk None None Fixture.shift_detail;
               Item.mk (Some (Datetime.mkdate 2019 6 11))
                       (Some "ABCDE - Melbourne Office") Fixture.shift_detail])
           (sample_listing_is_classified _)
           (sample_listing_is_no_login_page _)
           eq_refl eq_refl eq_refl).
Defined.

Lemma items_below_a_divider_are_dated_witness :
  Forall dated
    [Item.mk (Some (Datetime.mkdate 2019 6 11)) (Some "ABCDE - Melbourne Office")
             Fixture.shift_detail].
Proof.
  exact (items_below_a_divider_are_dated
           (Fixture.roster_response
              [Fixture.divider "Tue 11/06/2019 - ABCDE - Melbourne Office";
               Fixture.shift_row])
           (Fixture.content_div
              [Fixture.list_view
                 [Fixture.divider "Tue 11/06/2019 - ABCDE - Melbourne Office";
                  Fixture.shift_row]])
           (Fixture.list_view
              [Fixture.divider "Tue 11/06/2019 - ABCDE - Melbourne Office";
               Fixture.shift_row])
           (Fixture.divider "Tue 11/06/2019 - ABCDE - Melbourne Office")
           [Fixture.shift_row]
           (Snapshot.mk (Fixture.client_time 0)
              [Item.mk (Some (Datetime.mkdate 2019 6 11))
                       (Some "ABCDE - Melbourne Office") Fixture.shift_detail])
           eq_refl eq_refl eq_refl eq_refl eq_refl).
Defined.

Lemma get_roster_raises_only_witness :
  NotLoggedInError = BadResponseError "roster"
  \/ NotLoggedInError = NotLoggedInError
  \/ NotLoggedInError = KeyError
  \/ NotLoggedInError = AttributeError
  \/ NotLoggedInError = ValueError
  \/ NotLoggedInError = OverflowError
  \/ (exists value, Fixture.parsedate value = Raise NotLoggedInError)
  \/ (exists naive, Fixture.local_utcoffset naive = Raise NotLoggedInError).
Proof.
  apply (get_roster_raises_only Fixture.parsedate Fixture.local_utcoffset
           Fixture.client_time
           (Fixture.server Fixture.home_html Fixture.login_html)
           Fixture.fresh NotLoggedInError).
  reflexivity.
Defined.

Lemma divider_without_separator_has_empty_title_witness :
  roster_loop [Fixture.divider "Tue 11/06/2019"; Fixture.shift_row] None None []
  = Ok [Item.mk (Some (Datetime.mkdate 2019 6 11)) (Some EmptyString)
                Fixture.shift_detail].
Proof.
  rewrite (divider_without_separator_has_empty_title
             (Fixture.divider "Tue 11/06/2019") "Tue 11/06/2019"
             [Fixture.shift_row] None None [] eq_refl eq_refl).
  - reflexivity.
  - intros k. do 16 (destruct k as [|k]; [reflexivity|]). reflexivity.
Defined.

Lemma snapshot_dates_are_calendar_dates_witness :
  Forall (fun item => forall d, Item.date item = Some d -> valid_date d)
    [Item.mk (Some (Datetime.mkdate 2019 6 11)) (Some "ABCDE - Melbourne Office")
             Fixture.shift_detail].
Proof.
  exact (snapshot_dates_are_calendar_dates
           (Fixture.roster_response
              [Fixture.divider "Tue 11/06/2019 - ABCDE - Melbourne Office";
               Fixture.shift_row])
           (Snapshot.mk (Fixture.client_time 0)
              [Item.mk (Some (Datetime.mkdate 2019 6 11))
                       (Some "ABCDE - Melbourne Office") Fixture.shift_detail])
           eq_refl).
Defined.

Lemma undated_items_do_not_print_witness :
  Item.__str__ (Item.mk None None Fixture.shift_detail) = Raise AttributeError
  /\ rbind (Snapshot.__getitem__
              (Snapshot.mk (Fixture.client_time 0)
                 [Item.mk None None Fixture.shift_detail;
                  Item.mk (Some (Datetime.mkdate 2019 6 11))
                          (Some "ABCDE - Melbourne Office") Fixture.shift_detail])
              (Z.of_nat 0))
           Item.__str__
     = Raise AttributeError.
Proof.
  split.
  - apply (proj1 undated_items_do_not_print). reflexivity.
  - apply (proj2 undated_items_do_not_print
             (Fixture.roster_response
                [Fixture.shift_row;
                 Fixture.divider "Tue 11/06/2019 - ABCDE - Melbourne Office";
                 Fixture.shift_row])
             (Fixture.content_div
                [Fixture.list_view
                   [Fixture.shift_row;
                    Fixture.divider "Tue 11/06/2019 - ABCDE - Melbourne Office";
                    Fixture.shift_row]])
             (Fixture.list_view
                [Fixture.shift_row;
                 Fixture.divider "Tue 11/06/2019 - ABCDE - Melbourne Office";
                 Fixture.shift_row])
             [Fixture.shift_row]
             [Fixture.divider "Tue 11/06/2019 - ABCDE - Melbourne Office";
              Fixture.shift_row]
             [Fixture.shift_detail]
             (Snapshot.mk (Fixture.client_time 0)
                [Item.mk None None Fixture.shift_detail;
                 Item.mk (Some (Datetime.mkdate 2019 6 11))
                         (Some "ABCDE - Melbourne Office") Fixture.shift_detail])
             eq_refl eq_refl eq_refl
             (Forall_cons Fixture.shift_row (eq_refl : is_row Fixture.shift_row)
                (Forall_nil is_row))
             eq_refl eq_refl 0).
    cbn. lia.
Defined.

Lemma log_in_outcome_witness :
  fst (log_in Fixture.parsedate Fixture.local_utcoffset Fixture.setitem Fixture.client_time
         (Fixture.server Fixture.login_badcreds_html Fixture.roster_html)
         "joe.bloggs" "abc123" Fixture.fresh)
  = Raise (BadCredentialsError "joe.bloggs")
  /\ fst (log_in Fixture.parsedate Fixture.local_utcoffset Fixture.setitem Fixture.client_time
            (Fixture.server Fixture.home_html Fixture.roster_html)
            "joe.bloggs" "abc123" Fixture.fresh)
     = Ok tt.
Proof.
  split.
  - pose (w1 := snd ((_browse Fixture.parsedate Fixture.local_utcoffset Fixture.client_time
                        (Fixture.server Fixture.login_badcreds_html Fixture.roster_html)
                        (Some "Account/Login") "login" ;;;
                      browser_select_form ;;;
                      form_set Fixture.setitem "UserName" "joe.bloggs" ;;;
                      form_set Fixture.setitem "Password" "abc123") Fixture.fresh)).
    pose (w2 := snd (_browse Fixture.parsedate Fixture.local_utcoffset Fixture.client_time
                       (Fixture.server Fixture.login_badcreds_html Fixture.roster_html)
                       None "home" w1)).
    assert (Hprefix :
      (_browse Fixture.parsedate Fixture.local_utcoffset Fixture.client_time
         (Fixture.server Fixture.login_badcreds_html Fixture.roster_html)
         (Some "Account/Login") "login" ;;;
       browser_select_form ;;;
       form_set Fixture.setitem "UserName" "joe.bloggs" ;;;
       form_set Fixture.setitem "Password" "abc123") Fixture.fresh = (Ok tt, w1))
      by (vm_compute; reflexivity).
    assert (Hsubmit :
      _browse Fixture.parsedate Fixture.local_utcoffset Fixture.client_time
        (Fixture.server Fixture.login_badcreds_html Fixture.roster_html)
        None "home" w1
      = (Ok (_Response.mk (Fixture.client_time 1) "account-login"
               (Some (Fixture.content_div
                        [Fixture.validation_errors [bad_credentials_message];
                         Fixture.login_form]))), w2))
      by (vm_compute; reflexivity).
    destruct (log_in_outcome Fixture.parsedate Fixture.local_utcoffset
          Fixture.setitem Fixture.client_time
                (Fixture.server Fixture.login_badcreds_html Fixture.roster_html)
                "joe.bloggs" "abc123" Fixture.fresh w1 w2 _ Hprefix Hsubmit)
      as [_ Hother].
    assert (Hid : "account-login" <> "home-index") by discriminate.
    rewrite (proj1 (Hother Hid
                      (Fixture.content_div
                         [Fixture.validation_errors [bad_credentials_message];
                          Fixture.login_form])
                      (Fixture.validation_errors [bad_credentials_message])
                      [bad_credentials_message] eq_refl eq_refl eq_refl) eq_refl).
    reflexivity.
  - pose (w1 := snd ((_browse Fixture.parsedate Fixture.local_utcoffset Fixture.client_time
                        (Fixture.server Fixture.home_html Fixture.roster_html)
                        (Some "Account/Login") "login" ;;;
                      browser_select_form ;;;
                      form_set Fixture.setitem "UserName" "joe.bloggs" ;;;
                      form_set Fixture.setitem "Password" "abc123") Fixture.fresh)).
    pose (w2 := snd (_browse Fixture.parsedate Fixture.local_utcoffset Fixture.client_time
                       (Fixture.server Fixture.home_html Fixture.roster_html)
                       None "home" w1)).
    assert (Hprefix :
      (_browse Fixture.parsedate Fixture.local_utcoffset Fixture.client_time
         (Fixture.server Fixture.home_html Fixture.roster_html)
         (Some "Account/Login") "login" ;;;
       browser_select_form ;;;
       form_set Fixture.setitem "UserName" "joe.bloggs" ;;;
       form_set Fixture.setitem "Password" "abc123") Fixture.fresh = (Ok tt, w1))
      by (vm_compute; reflexivity).
    assert (Hsubmit :
      _browse Fixture.parsedate Fixture.local_utcoffset Fixture.client_time
        (Fixture.server Fixture.home_html Fixture.roster_html)
        None "home" w1
      = (Ok (_Response.mk (Fixture.client_time 1) "home-index"
               (Some (Fixture.content_div []))), w2))
      by (vm_compute; reflexivity).
    rewrite (proj1 (log_in_outcome Fixture.parsedate Fixture.local_utcoffset
          Fixture.setitem Fixture.client_time
                      (Fixture.server Fixture.home_html Fixture.roster_html)
                      "joe.bloggs" "abc123" Fixture.fresh w1 w2 _ Hprefix Hsubmit)
               eq_refl).
    reflexivity.
Defined.

Lemma log_in_stops_before_submitting_witness :
  (log_in Fixture.parsedate Fixture.local_utcoffset
        Fixture.setitem Fixture.client_time Fixture.offline
          "joe.bloggs" "abc123" Fixture.fresh
   = (Raise (BadResponseError "login"),
      mkWorld Fixture.fresh_session 1
              [Navigate (Fixture.TEST_URL ++ "/Account/Login")] []))
  /\ fst (log_in Fixture.parsedate Fixture.local_utcoffset Fixture.setitem Fixture.client_time
            (Fixture.static_server [] Fixture.home_html)
            "joe.bloggs" "abc123" Fixture.fresh)
     = Raise LinkNotFoundError
  /\ (fst (log_in Fixture.parsedate Fixture.local_utcoffset Fixture.setitem Fixture.client_time
             (Fixture.static_server [] Fixture.login_without_username_html)
             "joe.bloggs" "abc123" Fixture.fresh)
      = Raise LinkNotFoundError
      /\ sent (snd (log_in Fixture.parsedate Fixture.local_utcoffset
            Fixture.setitem Fixture.client_time
                      (Fixture.static_server [] Fixture.login_without_username_html)
                      "joe.bloggs" "abc123" Fixture.fresh))
         = [] ++ [Navigate (Fixture.TEST_URL ++ "/Account/Login")]).
Proof.
  split; [|split].
  - apply (proj1 (log_in_stops_before_submitting Fixture.parsedate Fixture.local_utcoffset
        Fixture.setitem
                    Fixture.client_time Fixture.offline "joe.bloggs" "abc123"
                    Fixture.fresh
                    (mkWorld Fixture.fresh_session 1
                       [Navigate (Fixture.TEST_URL ++ "/Account/Login")] []))
                 (BadResponseError "login")).
    reflexivity.
  - pose (w1 := snd (_browse Fixture.parsedate Fixture.local_utcoffset Fixture.client_time
                       (Fixture.static_server [] Fixture.home_html)
                       (Some "Account/Login") "login" Fixture.fresh)).
    rewrite (proj1 (proj1 (proj2 (log_in_stops_before_submitting Fixture.parsedate Fixture.local_utcoffset
                 Fixture.setitem Fixture.client_time
                 (Fixture.static_server [] Fixture.home_html)
                 "joe.bloggs" "abc123" Fixture.fresh w1)
               (_Response.mk (Fixture.client_time 0) "home-index"
                  (Some (Fixture.content_div [])))
               Fixture.home_html eq_refl eq_refl) eq_refl)).
    reflexivity.
  - pose (w1 := snd (_browse Fixture.parsedate Fixture.local_utcoffset Fixture.client_time
                       (Fixture.static_server [] Fixture.login_without_username_html)
                       (Some "Account/Login") "login" Fixture.fresh)).
    apply (proj2 (proj2 (log_in_stops_before_submitting Fixture.parsedate Fixture.local_utcoffset
                 Fixture.setitem Fixture.client_time
                 (Fixture.static_server [] Fixture.login_without_username_html)
                 "joe.bloggs" "abc123" Fixture.fresh w1)
               (_Response.mk (Fixture.client_time 0) "account-login"
                  (Some (Fixture.content_div
                           [Bs4.Tag "form" [("method", "post")]
                              [Bs4.Tag "input" [("name", "Password"); ("type", "password")]
                                 []]])))
               Fixture.login_without_username_html eq_refl eq_refl)
             (Bs4.Tag "form" [("method", "post")]
                [Bs4.Tag "input" [("name", "Password"); ("type", "password")] []])
             LinkNotFoundError eq_refl eq_refl).
Defined.

Lemma get_roster_and_log_out_footprint_witness :
  (exists purposes,
      grown_by [Navigate (Fixture.TEST_URL ++ "/Roster/List?pageNo=1&row=1")] purposes
               Fixture.fresh
               (snd (get_roster Fixture.parsedate Fixture.local_utcoffset Fixture.client_time
                       (Fixture.server Fixture.home_html Fixture.roster_html)
                       Fixture.fresh))
      /\ purposes = ["roster"])
  /\ (exists purposes,
         grown_by [Navigate (Fixture.TEST_URL ++ "/Account/LogOff")] purposes
                  Fixture.logged_in
                  (snd (log_out Fixture.parsedate Fixture.local_utcoffset
                        Fixture.cookie_in Fixture.client_time
                          (Fixture.server Fixture.home_html Fixture.roster_html)
                          Fixture.logged_in))
         /\ purposes = ["logout"]).
Proof.
  destruct (get_roster_and_log_out_footprint Fixture.parsedate Fixture.local_utcoffset
        Fixture.cookie_in Fixture.client_time
              (Fixture.server Fixture.home_html Fixture.roster_html) Fixture.fresh)
    as [(purposes & Hg & _ & Hok) _].
  destruct (get_roster_and_log_out_footprint Fixture.parsedate Fixture.local_utcoffset
        Fixture.cookie_in Fixture.client_time
              (Fixture.server Fixture.home_html Fixture.roster_html) Fixture.logged_in)
    as [_ Hout].
  change (is_logged_in Fixture.cookie_in (session Fixture.logged_in)) with true in Hout.
  destruct Hout as (purposes' & Hg' & _ & Hok').
  split.
  - exists purposes. split; [exact Hg|].
    apply (Hok (Snapshot.mk (Fixture.client_time 0)
                  [Item.mk (Some (Datetime.mkdate 2019 6 11))
                           (Some "ABCDE - Melbourne Office") Fixture.shift_detail])).
    reflexivity.
  - exists purposes'. split; [exact Hg'|]. apply Hok'. reflexivity.
Defined.

Lemma log_in_footprint_witness :
  exists requests purposes,
    grown_by requests purposes Fixture.fresh
             (snd (log_in Fixture.parsedate Fixture.local_utcoffset
                   Fixture.setitem Fixture.client_time
                     (Fixture.server Fixture.home_html Fixture.roster_html)
                     "joe.bloggs" "abc123" Fixture.fresh))
    /\ purposes = ["login"; "home"].
Proof.
  destruct (log_in_footprint Fixture.parsedate Fixture.local_utcoffset
        Fixture.setitem Fixture.client_time
              (Fixture.server Fixture.home_html Fixture.roster_html)
              "joe.bloggs" "abc123" Fixture.fresh)
    as (requests & purposes & Hg & _ & Hok).
  exists requests, purposes. split; [exact Hg|]. apply Hok. reflexivity.
Defined.

Lemma log_out_follows_the_server_witness :
  (is_logged_in Fixture.cookie_in
     (session (snd (log_out Fixture.parsedate Fixture.local_utcoffset Fixture.cookie_in
                      Fixture.client_time
                      (Fixture.server Fixture.home_html Fixture.roster_html)
                      Fixture.logged_in)))
   = Fixture.cookie_in ".ASPXAUTH" []
   /\ log_out Fixture.parsedate Fixture.local_utcoffset Fixture.cookie_in
              Fixture.client_time
              (Fixture.server Fixture.home_html Fixture.roster_html)
              (snd (log_out Fixture.parsedate Fixture.local_utcoffset Fixture.cookie_in
                      Fixture.client_time
                      (Fixture.server Fixture.home_html Fixture.roster_html)
                      Fixture.logged_in))
      = (Ok tt,
         snd (log_out Fixture.parsedate Fixture.local_utcoffset Fixture.cookie_in
                Fixture.client_time
                (Fixture.server Fixture.home_html Fixture.roster_html)
                Fixture.logged_in)))
  /\ (fst (log_out Fixture.parsedate Fixture.local_utcoffset Fixture.cookie_in
             Fixture.client_time Fixture.failing_after_clearing Fixture.logged_in)
      = Raise (BadResponseError "logout")
      /\ is_logged_in Fixture.cookie_in
           (session (snd (log_out Fixture.parsedate Fixture.local_utcoffset
                            Fixture.cookie_in Fixture.client_time
                            Fixture.failing_after_clearing Fixture.logged_in)))
         = Fixture.cookie_in ".ASPXAUTH" []
      /\ log_out Fixture.parsedate Fixture.local_utcoffset Fixture.cookie_in
                 Fixture.client_time Fixture.failing_after_clearing
                 (snd (log_out Fixture.parsedate Fixture.local_utcoffset
                         Fixture.cookie_in Fixture.client_time
                         Fixture.failing_after_clearing Fixture.logged_in))
         = (Ok tt,
            snd (log_out Fixture.parsedate Fixture.local_utcoffset Fixture.cookie_in
                   Fixture.client_time Fixture.failing_after_clearing
                   Fixture.logged_in))).
Proof.
  split.
  - destruct (proj1 (log_out_follows_the_server Fixture.parsedate Fixture.local_utcoffset
                       Fixture.cookie_in Fixture.client_time
                       (Fixture.server Fixture.home_html Fixture.roster_html)
                       Fixture.logged_in eq_refl)
                    (Response.mk
                       (Fixture.ok_exchange "GET" (Fixture.TEST_URL ++ "/Account/LogOff")
                          [] "<login>") [])
                    (Some Fixture.login_html) [] eq_refl) as [Hjar Hagain].
    split; [exact Hjar | exact (Hagain eq_refl)].
  - destruct (proj2 (log_out_follows_the_server Fixture.parsedate Fixture.local_utcoffset
                       Fixture.cookie_in Fixture.client_time
                       Fixture.failing_after_clearing Fixture.logged_in eq_refl)
                    [] eq_refl) as (Hraise & Hjar & Hagain).
    split; [exact Hraise|]. split; [exact Hjar | exact (Hagain eq_refl)].
Defined.

Lemma with_block_is_transparent_when_logged_out_witness :
  with_session Fixture.parsedate Fixture.local_utcoffset Fixture.cookie_in Fixture.client_time
               (Fixture.server Fixture.home_html Fixture.roster_html)
               (raise (A := nat) NotLoggedInError) Fixture.fresh
  = (Raise NotLoggedInError, Fixture.fresh).
Proof.
  apply (with_block_is_transparent_when_logged_out Fixture.parsedate Fixture.local_utcoffset
        Fixture.cookie_in Fixture.client_time
           (Fixture.server Fixture.home_html Fixture.roster_html)
           nat (raise NotLoggedInError) Fixture.fresh).
  reflexivity.
Defined.

Lemma snapshot_index_bounds_witness :
  let a := Item.mk None None [] in
  let b := Item.mk None None [Some "XYZ"] in
  let c := Item.mk None None [None] in
  let snapshot := Snapshot.mk Fixture.server_time [a; b; c] in
  Snapshot.__getitem__ snapshot 3 = Raise IndexError
  /\ Snapshot.__getitem__ snapshot (-1) = Snapshot.__getitem__ snapshot (-1 + 3)
  /\ exists item, Snapshot.__getitem__ snapshot (-3) = Ok item /\ In item [a; b; c].
Proof.
  intros a b c snapshot.
  destruct (snapshot_index_bounds Fixture.server_time [a; b; c] 3) as [Hout _].
  destruct (snapshot_index_bounds Fixture.server_time [a; b; c] (-1)) as [_ [Hneg _]].
  destruct (snapshot_index_bounds Fixture.server_time [a; b; c] (-3)) as [_ [_ Hin]].
  split; [|split].
  - apply Hout. right. cbn. lia.
  - apply Hneg. cbn. lia.
  - apply Hin. cbn. lia.
Defined.

Lemma messages_quote_plain_text_witness :
  exn_message (BadResponseError "logout")
  = Some "RosterOn returned an unexpected response for an operation expecting 'logout'"
  /\ exn_message (BadCredentialsError "logout")
     = Some "RosterOn rejected the login credentials for username 'logout'".
Proof.
  apply (messages_quote_plain_text "logout"). reflexivity.
Defined.
